(** * tide-link: listing submission form and directory gallery

    A shallow embedding of the logic of the two React screens of the
    repository:

    - [ListBusiness] (the listing submission form): the draft state, its
      change handlers, [uploadFile] and [handleSubmit];
    - [PopularBusinesses] (the directory gallery): [fetchBusinesses],
      [renderStars] and the card rendering;
    - [BusinessCard] (the detail card): its own [renderStars].

    The backend client (object storage, relational insert, remote query),
    the clock, the router, the toast surface and the console are external.
    Calls that leave the component are recorded in an effect log; what the
    outside world answers is read from an environment record. *)

From Stdlib Require Import ZArith QArith Qround String List Bool Lia.
From Stdlib Require Import DecimalString.
From stdpp Require Import base gmap sets list strings.
Import ListNotations.

Local Open Scope string_scope.
Local Open Scope list_scope.
Local Open Scope nat_scope.

(* ===================================================================== *)
(** ** JavaScript values used by the components *)
(* ===================================================================== *)

(** A thrown or returned error object. Only its [message] property is read
    by the components; it may be missing. *)
Record JSError := { message : option string }.

(** [s || null] on a string: the empty string is falsy. *)
Definition or_null (s : string) : option string :=
  if String.eqb s "" then None else Some s.

(** [xs.length > 0 ? xs : null]. *)
Definition nonempty_or_null {A : Type} (xs : list A) : option (list A) :=
  if (0 <? length xs)%nat then Some xs else None.

(** [m || fallback] where [m] is a possibly missing string property. *)
Definition or_else (m : option string) (fallback : string) : string :=
  match m with
  | Some s => if String.eqb s "" then fallback else s
  | None => fallback
  end.

(** Template-literal rendering of an integer-valued number
    ([Date.now()], an array index). *)
Definition show_Z (z : Z) : string := NilZero.string_of_int (Z.to_int z).
Definition show_nat (n : nat) : string := show_Z (Z.of_nat n).

(** A browser [File]: the components read its [name]; the content is
    opaque and stands for the bytes handed to the storage client. *)
Record File := { file_name : string; file_body : list Byte.byte }.

(** Comparison of two finite numbers. A JavaScript number that came out of
    a JSON response is a finite double, hence a rational; [<] on such
    values is the order of [Q]. *)
Definition Qltb (x y : Q) : bool := negb (Qle_bool y x).

(** An array index as a number. *)
Definition index_number (i : nat) : Q := inject_Z (Z.of_nat i).

(* ===================================================================== *)
(** ** The [businesses] row built by the form *)
(* ===================================================================== *)

(** The object literal passed to [supabase.from('businesses').insert]. A
    property that can hold [null] is an [option]. *)
Module Row.
Record t := {
  owner_id : string;
  name : string;
  description : string;
  category : string;
  phone : string;
  address : string;
  city : string;
  state : string;
  zip_code : string;
  website : option string;
  image_url : option string;
  facebook_page : option string;
  tiktok_url : option string;
  starting_price : option string;
  business_options : option (list string);
  products_catalog : option string;
  license_expired_date : option string;
  product_images : option (list string)
}.
End Row.

(* ===================================================================== *)
(** ** Effects shared by the components *)
(* ===================================================================== *)

Record ToastMsg := {
  title : string;
  toast_description : string;
  variant : option string
}.

(** The options object of [storage.from(bucket).upload]. *)
Record UploadOptions := { cacheControl : string; upsert : bool }.

(** What leaves a component, in program order. [StorageUpload] and
    [DbInsert] and [Rpc] are the calls to the backend client. *)
Inductive Effect :=
| PreventDefault
| Toast (t : ToastMsg)
| Navigate (to : string)
| ConsoleError (label : string) (e : JSError)
| StorageUpload (bucket path : string) (file : File) (opts : UploadOptions)
| DbInsert (table : string) (row : Row.t)
| Rpc (fn : string).

Definition is_upload (ev : Effect) : bool :=
  match ev with StorageUpload _ _ _ _ => true | _ => false end.

Definition is_insert (ev : Effect) : bool :=
  match ev with DbInsert _ _ => true | _ => false end.

Definition is_navigate (ev : Effect) : bool :=
  match ev with Navigate _ => true | _ => false end.

Definition is_backend_call (ev : Effect) : bool :=
  match ev with
  | StorageUpload _ _ _ _ | DbInsert _ _ | Rpc _ => true
  | _ => false
  end.

Definition upload_calls (log : list Effect) : list Effect :=
  List.filter is_upload log.
Definition insert_calls (log : list Effect) : list Effect :=
  List.filter is_insert log.
Definition backend_calls (log : list Effect) : list Effect :=
  List.filter is_backend_call log.

(* ===================================================================== *)
(** ** A small monad for handlers: state, effect log, exceptions *)
(* ===================================================================== *)

Inductive Result (A : Type) :=
| Returned (a : A)
| Thrown (e : JSError).
Arguments Returned {A} a.
Arguments Thrown {A} e.

(** A handler body over component state [St]: the new state, the effects
    it issued, and whether it returned or threw. *)
Definition Prog (St A : Type) : Type := St -> St * list Effect * Result A.

Section Prog.
Context {St : Type}.

Definition ret {A} (a : A) : Prog St A := fun s => (s, [], Returned a).

Definition bind {A B} (m : Prog St A) (k : A -> Prog St B) : Prog St B :=
  fun s =>
    match m s with
    | (s1, log1, Returned a) =>
        match k a s1 with (s2, log2, r) => (s2, log1 ++ log2, r) end
    | (s1, log1, Thrown e) => (s1, log1, Thrown e)
    end.

Definition throw {A} (e : JSError) : Prog St A :=
  fun s => (s, [], Thrown e).

Definition emit (ev : Effect) : Prog St unit :=
  fun s => (s, [ev], Returned tt).

Definition get : Prog St St := fun s => (s, [], Returned s).

Definition modify (f : St -> St) : Prog St unit :=
  fun s => (f s, [], Returned tt).

(** [try { body } catch (error) { handler }]. *)
Definition try_catch {A} (body : Prog St A) (handler : JSError -> Prog St A)
  : Prog St A :=
  fun s =>
    match body s with
    | (s1, log1, Thrown e) =>
        match handler e s1 with (s2, log2, r) => (s2, log1 ++ log2, r) end
    | done => done
    end.

(** [try { body } finally { fin }]: [fin] runs on every exit of [body];
    the outcome of [body] stands unless [fin] itself throws. *)
Definition try_finally {A} (body : Prog St A) (fin : Prog St unit)
  : Prog St A :=
  fun s =>
    match body s with
    | (s1, log1, r) =>
        match fin s1 with
        | (s2, log2, Returned _) => (s2, log1 ++ log2, r)
        | (s2, log2, Thrown e) => (s2, log1 ++ log2, Thrown e)
        end
    end.
End Prog.

Declare Scope prog_scope.
Delimit Scope prog_scope with prog.
Notation "'let*' x ':=' c 'in' k" := (bind c (fun x => k))
  (at level 10, x name, c at level 100, k at level 200) : prog_scope.
Notation "c ';;' k" := (bind c (fun _ => k))
  (at level 100, k at level 200, right associativity) : prog_scope.

(** A promise whose settlement is already decided by the outside world:
    [settled_at] orders settlements in time. *)
Record Promise (A : Type) := { settled_at : nat; settled : Result A }.
Arguments settled_at {A} p.
Arguments settled {A} p.

(** [await p]. *)
Definition await {St A} (p : Promise A) : Prog St A :=
  fun s => (s, [], settled p).

(** The rejection that [Promise.all] reports: the one that settles first
    in time (the leftmost among equal times). *)
Fixpoint first_rejection {A} (ps : list (Promise A)) : option (nat * JSError) :=
  match ps with
  | [] => None
  | p :: rest =>
      match settled p, first_rejection rest with
      | Thrown e, Some (t, e') =>
          if (t <? settled_at p)%nat then Some (t, e') else Some (settled_at p, e)
      | Thrown e, None => Some (settled_at p, e)
      | Returned _, r => r
      end
  end.

Fixpoint fulfilled_values {A} (ps : list (Promise A)) : list A :=
  match ps with
  | [] => []
  | p :: rest =>
      match settled p with
      | Returned a => a :: fulfilled_values rest
      | Thrown _ => fulfilled_values rest
      end
  end.

(** [Promise.all(ps)]: the values in index order when every promise is
    fulfilled, else the first rejection. *)
Definition Promise_all {A} (ps : list (Promise A)) : Promise (list A) :=
  match first_rejection ps with
  | Some (t, e) => {| settled_at := t; settled := Thrown e |}
  | None =>
      {| settled_at := fold_right Nat.max 0 (List.map settled_at ps);
         settled := Returned (fulfilled_values ps) |}
  end.

(** [xs.map((x, index) => f(x, index))] for an effectful callback: the
    callbacks run in index order, each to its first suspension. *)
Fixpoint map_indexed {St A B} (f : A -> nat -> Prog St B) (xs : list A)
    (index : nat) : Prog St (list B) :=
  match xs with
  | [] => ret []
  | x :: rest =>
      (let* y := f x index in
       let* ys := map_indexed f rest (S index) in
       ret (y :: ys))%prog
  end.

(* ===================================================================== *)
(** ** The outside world *)
(* ===================================================================== *)

(** [data] of a successful storage upload; the form reads [data.path]. *)
Record UploadData := { data_path : string }.

(** The settlement of one [upload] call: when it settles, and with an
    error or with data. *)
Record UploadReply := {
  settles_after : nat;
  upload_result : JSError + UploadData
}.

(** A row returned by [get_public_businesses], as the gallery reads it.
    [rating] is a finite number; a property the gallery tests for
    truthiness may be [null]. *)
Module Business.
Record t := {
  id : string;
  name : string;
  description : option string;
  category : string;
  city : string;
  state : string;
  rating : Q;
  image_url : option string;
  website : option string;
  product_images : option (list string)
}.
End Business.

(** The settlement of [supabase.rpc(fn)]: resolved to [{data, error}], or
    rejected. *)
Inductive RpcReply :=
| RpcResolved (data : option (list Business.t)) (error : option JSError)
| RpcRejected (e : JSError).

Record Backend := {
  (** the value of the k-th evaluation of [Date.now()] *)
  now : nat -> Z;
  storage_upload : string -> string -> File -> UploadOptions -> UploadReply;
  storage_getPublicUrl : string -> string -> string;
  db_insert : string -> Row.t -> option JSError;
  rpc : string -> RpcReply
}.

(* ===================================================================== *)
(** ** The listing submission screen ([ListBusiness]) *)
(* ===================================================================== *)

Module ListBusiness.

(** [interface BusinessFormData]. *)
Record BusinessFormData := {
  name : string;
  description : string;
  category : string;
  phone : string;
  licenseExpiredDate : string;
  address : string;
  city : string;
  state : string;
  zipCode : string;
  website : string;
  facebookPage : string;
  tiktokUrl : string;
  startingPrice : string;
  options : list string;
  productsCatalog : string
}.

Definition BUSINESS_OPTIONS : list string :=
  ["Cash on Delivery"; "Pickup In-Store"; "Digital Payments";
   "Next-Day Delivery"].

(** The keys that the form passes to [handleInputChange]. *)
Inductive Field :=
| Fname | Fdescription | Fcategory | Fphone | FlicenseExpiredDate
| Faddress | Fcity | Fstate | FzipCode | Fwebsite | FfacebookPage
| FtiktokUrl | FstartingPrice | FproductsCatalog.

(** [{ ...prev, [field]: value }]. *)
Definition set_field (prev : BusinessFormData) (field : Field)
    (value : string) : BusinessFormData :=
  {| name := match field with Fname => value | _ => name prev end;
     description :=
       match field with Fdescription => value | _ => description prev end;
     category := match field with Fcategory => value | _ => category prev end;
     phone := match field with Fphone => value | _ => phone prev end;
     licenseExpiredDate :=
       match field with
       | FlicenseExpiredDate => value
       | _ => licenseExpiredDate prev
       end;
     address := match field with Faddress => value | _ => address prev end;
     city := match field with Fcity => value | _ => city prev end;
     state := match field with Fstate => value | _ => state prev end;
     zipCode := match field with FzipCode => value | _ => zipCode prev end;
     website := match field with Fwebsite => value | _ => website prev end;
     facebookPage :=
       match field with FfacebookPage => value | _ => facebookPage prev end;
     tiktokUrl :=
       match field with FtiktokUrl => value | _ => tiktokUrl prev end;
     startingPrice :=
       match field with FstartingPrice => value | _ => startingPrice prev end;
     options := options prev;
     productsCatalog :=
       match field with
       | FproductsCatalog => value
       | _ => productsCatalog prev
       end |}.

(** [{ ...prev, options: opts }]. *)
Definition set_options (prev : BusinessFormData) (opts : list string)
  : BusinessFormData :=
  {| name := name prev; description := description prev;
     category := category prev; phone := phone prev;
     licenseExpiredDate := licenseExpiredDate prev;
     address := address prev; city := city prev; state := state prev;
     zipCode := zipCode prev; website := website prev;
     facebookPage := facebookPage prev; tiktokUrl := tiktokUrl prev;
     startingPrice := startingPrice prev; options := opts;
     productsCatalog := productsCatalog prev |}.

(** The authenticated identity handed out by [useAuth]. *)
Record User := { id : string }.

(** The hooks of the component: [useAuth], the three [useState] cells,
    and the number of clock readings taken so far. *)
Record State := {
  user : option User;
  loading : bool;
  logoFile : option File;
  productImages : list File;
  formData : BusinessFormData;
  clock_reads : nat
}.

Definition initialFormData : BusinessFormData :=
  {| name := ""; description := ""; category := ""; phone := "";
     licenseExpiredDate := ""; address := ""; city := ""; state := "";
     zipCode := ""; website := ""; facebookPage := ""; tiktokUrl := "";
     startingPrice := ""; options := []; productsCatalog := "" |}.

(** The state on mount, for the identity [u] reported by [useAuth]. *)
Definition initialState (u : option User) : State :=
  {| user := u; loading := false; logoFile := None; productImages := [];
     formData := initialFormData; clock_reads := 0 |}.

Definition setFormData (f : BusinessFormData -> BusinessFormData)
    (s : State) : State :=
  {| user := user s; loading := loading s; logoFile := logoFile s;
     productImages := productImages s; formData := f (formData s);
     clock_reads := clock_reads s |}.

Definition setLogoFile (file : option File) (s : State) : State :=
  {| user := user s; loading := loading s; logoFile := file;
     productImages := productImages s; formData := formData s;
     clock_reads := clock_reads s |}.

Definition setProductImages (files : list File) (s : State) : State :=
  {| user := user s; loading := loading s; logoFile := logoFile s;
     productImages := files; formData := formData s;
     clock_reads := clock_reads s |}.

Definition setLoading (b : bool) (s : State) : State :=
  {| user := user s; loading := b; logoFile := logoFile s;
     productImages := productImages s; formData := formData s;
     clock_reads := clock_reads s |}.

Definition setUser (u : option User) (s : State) : State :=
  {| user := u; loading := loading s; logoFile := logoFile s;
     productImages := productImages s; formData := formData s;
     clock_reads := clock_reads s |}.

Definition tick (s : State) : State :=
  {| user := user s; loading := loading s; logoFile := logoFile s;
     productImages := productImages s; formData := formData s;
     clock_reads := S (clock_reads s) |}.

Definition handleInputChange (field : Field) (value : string)
  : State -> State :=
  setFormData (fun prev => set_field prev field value).

Definition handleOptionChange (option : string) (checked : bool)
  : State -> State :=
  setFormData (fun prev =>
    set_options prev
      (if checked
       then options prev ++ [option]
       else List.filter (fun opt => negb (String.eqb opt option))
              (options prev))).

(** [e.target.files] is [null] or a file list. *)
Definition handleLogoChange (files : option (list File)) (s : State)
  : State :=
  match files with
  | Some (file :: _) => setLogoFile (Some file) s
  | _ => s
  end.

Definition handleProductImagesChange (files : option (list File))
    (s : State) : State :=
  match files with
  | Some fs => setProductImages (firstn 3 fs) s
  | None => s
  end.

(** [checked={formData.options.includes(option)}] of a checkbox. *)
Definition option_checked (s : State) (option : string) : bool :=
  existsb (String.eqb option) (options (formData s)).

Definition logoPath (u : User) (t : Z) (file : File) : string :=
  "logos/" ++ id u ++ "/" ++ show_Z t ++ "_" ++ file_name file.

Definition imagePath (u : User) (t : Z) (index : nat) (file : File)
  : string :=
  "products/" ++ id u ++ "/" ++ show_Z t ++ "_" ++ show_nat index ++ "_"
    ++ file_name file.

Definition upload_options : UploadOptions :=
  {| cacheControl := "3600"; upsert := false |}.

(** The object literal handed to [insert]. *)
Definition insert_row (u : User) (fd : BusinessFormData)
    (logoUrl : string) (imageUrls : list string) : Row.t :=
  {| Row.owner_id := id u;
     Row.name := name fd;
     Row.description := description fd;
     Row.category := category fd;
     Row.phone := phone fd;
     Row.address := address fd;
     Row.city := city fd;
     Row.state := state fd;
     Row.zip_code := zipCode fd;
     Row.website := Some (website fd);
     Row.image_url := or_null logoUrl;
     Row.facebook_page := or_null (facebookPage fd);
     Row.tiktok_url := or_null (tiktokUrl fd);
     Row.starting_price := or_null (startingPrice fd);
     Row.business_options := nonempty_or_null (options fd);
     Row.products_catalog := or_null (productsCatalog fd);
     Row.license_expired_date := or_null (licenseExpiredDate fd);
     Row.product_images := nonempty_or_null imageUrls |}.

Definition auth_required_toast : ToastMsg :=
  {| title := "Authentication Required";
     toast_description := "Please sign in to list your business.";
     variant := Some "destructive" |}.

Definition success_toast : ToastMsg :=
  {| title := "Success!";
     toast_description := "Your business has been listed successfully.";
     variant := None |}.

Definition error_toast (error : JSError) : ToastMsg :=
  {| title := "Error";
     toast_description :=
       or_else (message error) "Failed to list business. Please try again.";
     variant := Some "destructive" |}.

Section WithBackend.
Variable env : Backend.
Local Open Scope prog_scope.

(** [Date.now()]. *)
Definition Date_now : Prog State Z :=
  fun s => (tick s, [], Returned (now env (clock_reads s))).

(** [uploadFile]: an async function. The call to [upload] is issued
    when it is invoked; the returned promise settles with the public
    URL, or rejects with the storage error. *)
Definition uploadFile (file : File) (bucket path : string)
  : Prog State (Promise string) :=
  emit (StorageUpload bucket path file upload_options) ;;
  let reply := storage_upload env bucket path file upload_options in
  ret {| settled_at := settles_after reply;
         settled :=
           match upload_result reply with
           | inl error => Thrown error
           | inr data =>
               Returned (storage_getPublicUrl env bucket (data_path data))
           end |}.

Definition handleSubmit : Prog State unit :=
  emit PreventDefault ;;
  let* s := get in
  match user s with
  | None =>
      emit (Toast auth_required_toast) ;;
      emit (Navigate "/auth/signin") ;;
      ret tt
  | Some u =>
      modify (setLoading true) ;;
      try_finally
        (try_catch
           (let* logoUrl :=
              match logoFile s with
              | Some file =>
                  let* t := Date_now in
                  let* p := uploadFile file "business-assets"
                              (logoPath u t file) in
                  await p
              | None => ret ""
              end in
            let* imageUrls :=
              if (0 <? length (productImages s))%nat
              then
                let* uploadPromises :=
                  map_indexed
                    (fun file index =>
                       let* t := Date_now in
                       uploadFile file "business-assets"
                         (imagePath u t index file))
                    (productImages s) 0 in
                await (Promise_all uploadPromises)
              else ret [] in
            emit (DbInsert "businesses"
                    (insert_row u (formData s) logoUrl imageUrls)) ;;
            match db_insert env "businesses"
                    (insert_row u (formData s) logoUrl imageUrls) with
            | Some error => throw error
            | None =>
                emit (Toast success_toast) ;;
                emit (Navigate "/dashboard")
            end)
           (fun error =>
              emit (ConsoleError "Error listing business:" error) ;;
              emit (Toast (error_toast error))))
        (modify (setLoading false))
  end.

(** What can happen to the mounted form: the change handlers wired in
    the markup, a submit of the form, and a change of the identity
    reported by [useAuth]. *)
Inductive Event :=
| InputChange (field : Field) (value : string)
| OptionChange (option : string) (checked : bool)
| LogoChange (files : option (list File))
| ProductImagesChange (files : option (list File))
| Submit
| AuthChange (u : option User).

Definition step (ev : Event) (s : State) : State * list Effect :=
  match ev with
  | InputChange field value => (handleInputChange field value s, [])
  | OptionChange option checked =>
      (handleOptionChange option checked s, [])
  | LogoChange files => (handleLogoChange files s, [])
  | ProductImagesChange files => (handleProductImagesChange files s, [])
  | Submit => match handleSubmit s with (s', log, _) => (s', log) end
  | AuthChange u => (setUser u s, [])
  end.

(** The state and the effect log after a sequence of events. *)
Fixpoint run (evs : list Event) (s : State) : State * list Effect :=
  match evs with
  | [] => (s, [])
  | ev :: rest =>
      match step ev s with
      | (s1, log1) =>
          match run rest s1 with (s2, log2) => (s2, log1 ++ log2) end
      end
  end.
End WithBackend.

End ListBusiness.

(* ===================================================================== *)
(** ** Star rows *)
(* ===================================================================== *)

(** One [<Star key=... className=... />]: its key and whether its class
    is the filled one. *)
Record Star := { star_key : nat; star_filled : bool }.

Definition filled_count (row : list Star) : nat :=
  length (List.filter star_filled row).

Definition unfilled_count (row : list Star) : nat :=
  length (List.filter (fun st => negb (star_filled st)) row).

(* ===================================================================== *)
(** ** The directory gallery ([PopularBusinesses]) *)
(* ===================================================================== *)

Module PopularBusinesses.

Record State := { businesses : list Business.t; loading : bool }.

(** [useState([])], [useState(true)]. *)
Definition initialState : State := {| businesses := []; loading := true |}.

Definition setBusinesses (data : list Business.t) (s : State) : State :=
  {| businesses := data; loading := loading s |}.

Definition setLoading (b : bool) (s : State) : State :=
  {| businesses := businesses s; loading := b |}.

Section WithBackend.
Variable env : Backend.
Local Open Scope prog_scope.

Definition fetchBusinesses : Prog State unit :=
  try_finally
    (try_catch
       (emit (Rpc "get_public_businesses") ;;
        match rpc env "get_public_businesses" with
        | RpcRejected e => throw e
        | RpcResolved data error =>
            match error with
            | Some err =>
                emit (ConsoleError "Error fetching businesses:" err) ;;
                ret tt
            | None =>
                match data with
                | Some rows => modify (setBusinesses rows)
                | None => ret tt
                end
            end
        end)
       (fun error => emit (ConsoleError "Error:" error)))
    (modify (setLoading false)).
End WithBackend.

(** [Array.from({ length: 5 }).map((_, index) => ... index < rating ...)]. *)
Definition renderStars (rating : Q) : list Star :=
  List.map
    (fun index =>
       {| star_key := index;
          star_filled := Qltb (index_number index) rating |})
    (seq 0 5).

Definition product_placeholder : string :=
  "https://images.unsplash.com/photo-1441986300917-64674bd600d8?w=320&h=200&fit=crop".
Definition logo_placeholder : string :=
  "https://images.unsplash.com/photo-1592659762303-90081d34b277?w=40&h=40&fit=crop".

(** What one card shows. *)
Record Card := {
  card_key : string;
  primary_image : string;
  stars : list Star;
  logo : string;
  heading : string;
  location : string;
  blurb : option string;
  badges : list string;
  visit_website : option string
}.

Definition truthy_string (o : option string) : option string :=
  match o with Some s => or_null s | None => None end.

Definition renderCard (business : Business.t) : Card :=
  {| card_key := Business.id business;
     primary_image :=
       match Business.product_images business with
       | Some (first :: _) => first
       | _ => product_placeholder
       end;
     stars := renderStars (Business.rating business);
     logo := or_else (Business.image_url business) logo_placeholder;
     heading := Business.name business;
     location := Business.city business ++ ", " ++ Business.state business;
     blurb := truthy_string (Business.description business);
     badges := ["Cash on Delivery"; "Pickup In-Store"; "Digital Payments";
                "Next-Day Delivery"];
     visit_website := truthy_string (Business.website business) |}.

(** The two things the component can return: the loading section, or
    the section with one card per business. *)
Inductive View :=
| LoadingView
| GalleryView (cards : list Card).

Definition render (s : State) : View :=
  if loading s then LoadingView
  else GalleryView (List.map renderCard (businesses s)).

End PopularBusinesses.

(* ===================================================================== *)
(** ** The detail card ([BusinessCard]) *)
(* ===================================================================== *)

Module BusinessCard.

(** [Array.from({ length: 5 }, (_, i) => ... i < Math.floor(rating) ...)]. *)
Definition renderStars (rating : Q) : list Star :=
  List.map
    (fun i =>
       {| star_key := i;
          star_filled := (Z.of_nat i <? Qfloor rating)%Z |})
    (seq 0 5).

End BusinessCard.

(* ===================================================================== *)
(** ** Notions used in the statements *)
(* ===================================================================== *)

Definition state_of {St A} (r : St * list Effect * Result A) : St :=
  fst (fst r).
Definition log_of {St A} (r : St * list Effect * Result A) : list Effect :=
  snd (fst r).
Definition result_of {St A} (r : St * list Effect * Result A) : Result A :=
  snd r.

(** The error, if any, with which the backend answers a call. *)
Definition reply_error (env : Backend) (call : Effect) : option JSError :=
  match call with
  | StorageUpload bucket path file opts =>
      match upload_result (storage_upload env bucket path file opts) with
      | inl error => Some error
      | inr _ => None
      end
  | DbInsert table row => db_insert env table row
  | Rpc fn =>
      match rpc env fn with
      | RpcResolved _ error => error
      | RpcRejected e => Some e
      end
  | _ => None
  end.

(** The file carried by an upload call. *)
Definition uploaded_file (call : Effect) : option File :=
  match call with
  | StorageUpload _ _ file _ => Some file
  | _ => None
  end.

(** The files selected in the form, in the order the handler visits them:
    the logo, then the product images. *)
Definition selected_files (s : ListBusiness.State) : list File :=
  match ListBusiness.logoFile s with
  | Some file => [file]
  | None => []
  end ++ ListBusiness.productImages s.

(** The set of checked options after a sequence of events, in the words
    of the specification: ticking a checkbox adds its label to the set
    [acc], unticking removes it, and no other event touches it. This is
    the reference against which the option list kept by
    [handleOptionChange] is compared. *)
Fixpoint checked_set (evs : list ListBusiness.Event) (acc : gset string)
  : gset string :=
  match evs with
  | [] => acc
  | ListBusiness.OptionChange option true :: rest =>
      checked_set rest (acc ∪ {[option]})
  | ListBusiness.OptionChange option false :: rest =>
      checked_set rest (acc ∖ {[option]})
  | _ :: rest => checked_set rest acc
  end.

(** The upload calls and promises of the product images [files], the
    first of which has position [index] and reads the clock for the
    [k]-th time. *)
Fixpoint product_calls (env : Backend) (u : ListBusiness.User)
    (files : list File) (index k : nat) : list Effect :=
  match files with
  | [] => []
  | file :: rest =>
      StorageUpload "business-assets"
        (ListBusiness.imagePath u (now env k) index file) file
        ListBusiness.upload_options
      :: product_calls env u rest (S index) (S k)
  end.

Definition upload_promise (env : Backend) (bucket path : string)
    (file : File) : Promise string :=
  let reply :=
    storage_upload env bucket path file ListBusiness.upload_options in
  {| settled_at := settles_after reply;
     settled :=
       match upload_result reply with
       | inl error => Thrown error
       | inr data =>
           Returned (storage_getPublicUrl env bucket (data_path data))
       end |}.

Fixpoint product_promises (env : Backend) (u : ListBusiness.User)
    (files : list File) (index k : nat) : list (Promise string) :=
  match files with
  | [] => []
  | file :: rest =>
      upload_promise env "business-assets"
        (ListBusiness.imagePath u (now env k) index file) file
      :: product_promises env u rest (S index) (S k)
  end.

(** The upload call for the logo, if one is selected, and the result the
    handler gets when it awaits it. *)
Definition logo_calls (env : Backend) (u : ListBusiness.User)
    (s : ListBusiness.State) : list Effect :=
  match ListBusiness.logoFile s with
  | Some file =>
      [StorageUpload "business-assets"
         (ListBusiness.logoPath u (now env (ListBusiness.clock_reads s)) file)
         file ListBusiness.upload_options]
  | None => []
  end.

Definition logo_result (env : Backend) (u : ListBusiness.User)
    (s : ListBusiness.State) : Result string :=
  match ListBusiness.logoFile s with
  | Some file =>
      settled
        (upload_promise env "business-assets"
           (ListBusiness.logoPath u (now env (ListBusiness.clock_reads s)) file)
           file)
  | None => Returned ""
  end.

(** The upload calls for the product images and the result of awaiting
    their [Promise.all]; they read the clock after the logo did. *)
Definition image_calls (env : Backend) (u : ListBusiness.User)
    (s : ListBusiness.State) : list Effect :=
  product_calls env u (ListBusiness.productImages s) 0
    (length (logo_calls env u s) + ListBusiness.clock_reads s).

Definition images_result (env : Backend) (u : ListBusiness.User)
    (s : ListBusiness.State) : Result (list string) :=
  settled
    (Promise_all
       (product_promises env u (ListBusiness.productImages s) 0
          (length (logo_calls env u s) + ListBusiness.clock_reads s))).

(** What the [catch] block of the submit handler issues. *)
Definition catch_log (error : JSError) : list Effect :=
  [ConsoleError "Error listing business:" error;
   Toast (ListBusiness.error_toast error)].

(** The files carried by the upload calls of a log, in order. *)
Definition uploaded_files (log : list Effect) : list File :=
  omap uploaded_file log.

(* ===================================================================== *)
(** ** Sample worlds and drafts *)
(* ===================================================================== *)

Module Sample.
Import ListBusiness.

Definition alice : User := {| id := "7f3c" |}.
Definition logo_png : File := {| file_name := "logo.png"; file_body := [] |}.
Definition front_jpg : File :=
  {| file_name := "front.jpg"; file_body := [] |}.
Definition menu_jpg : File := {| file_name := "menu.jpg"; file_body := [] |}.

Definition already_exists : JSError :=
  {| message := Some "The resource already exists" |}.
Definition silent_error : JSError := {| message := None |}.

(** A backend that accepts everything. *)
Definition accepting : Backend :=
  {| now := fun k => (1700000000000 + Z.of_nat k)%Z;
     storage_upload := fun _ path _ _ =>
       {| settles_after := 1;
          upload_result := inr {| data_path := path |} |};
     storage_getPublicUrl := fun bucket path =>
       ("https://cdn.example/" ++ bucket ++ "/" ++ path)%string;
     db_insert := fun _ _ => None;
     rpc := fun _ => RpcResolved (Some []) None |}.

(** A backend whose storage refuses every upload (as it does on a name
    collision when [upsert] is off) and whose remote query fails. *)
Definition refusing : Backend :=
  {| now := now accepting;
     storage_upload := fun _ _ _ _ =>
       {| settles_after := 1; upload_result := inl already_exists |};
     storage_getPublicUrl := storage_getPublicUrl accepting;
     db_insert := fun _ _ => Some silent_error;
     rpc := fun _ => RpcResolved None (Some silent_error) |}.

(** A draft with a logo and two product images, by [alice]. *)
Definition draft : State :=
  handleProductImagesChange (Some [front_jpg; menu_jpg])
    (handleLogoChange (Some [logo_png])
       (handleInputChange Fname "Joe's Cafe" (initialState (Some alice)))).

(** The same form before anything was typed or selected. *)
Definition blank : State := initialState (Some alice).

(** The form as an anonymous visitor would submit it. *)
Definition anonymous : State := setUser None draft.

(** The upload calls that a submit of [draft] issues first and last. *)
Definition logo_call : Effect :=
  StorageUpload "business-assets" "logos/7f3c/1700000000000_logo.png"
    logo_png upload_options.
Definition menu_call : Effect :=
  StorageUpload "business-assets" "products/7f3c/1700000000002_1_menu.jpg"
    menu_jpg upload_options.

(** The row that a submit of [draft] inserts when every upload is
    accepted. *)
Definition draft_row : Row.t :=
  insert_row alice (formData draft)
    "https://cdn.example/business-assets/logos/7f3c/1700000000000_logo.png"
    ["https://cdn.example/business-assets/products/7f3c/1700000000001_0_front.jpg";
     "https://cdn.example/business-assets/products/7f3c/1700000000002_1_menu.jpg"].

(** Selecting four product images, then submitting. *)
Definition four_then_submit : list Event :=
  [ProductImagesChange (Some [front_jpg; menu_jpg; logo_png; front_jpg]);
   Submit].
Definition four_row : Row.t :=
  insert_row alice initialFormData ""
    ["https://cdn.example/business-assets/products/7f3c/1700000000000_0_front.jpg";
     "https://cdn.example/business-assets/products/7f3c/1700000000001_1_menu.jpg";
     "https://cdn.example/business-assets/products/7f3c/1700000000002_2_logo.png"].

(** Two ways of ending up with only "Digital Payments" ticked. *)
Definition tick_two_untick_one : list Event :=
  [OptionChange "Cash on Delivery" true;
   OptionChange "Digital Payments" true;
   OptionChange "Cash on Delivery" false].
Definition tick_one : list Event :=
  [OptionChange "Digital Payments" true].
Definition digital_row : Row.t :=
  insert_row alice
    (formData (fst (run accepting tick_two_untick_one blank))) "" [].

(** A row of the public listing rated 3.7. *)
Definition joes_cafe : Business.t :=
  {| Business.id := "b-1"; Business.name := "Joe's Cafe";
     Business.description := Some "Coffee shop";
     Business.category := "Restaurant"; Business.city := "Yangon";
     Business.state := "Yangon Region"; Business.rating := 37 # 10;
     Business.image_url := None; Business.website := None;
     Business.product_images := None |}.
End Sample.

(* ===================================================================== *)
(** ** The rest of the form: reading a field, the rendered screen *)
(* ===================================================================== *)

(** [formData[field]] for the keys of [Field]. *)
Definition get_field (field : ListBusiness.Field)
    (fd : ListBusiness.BusinessFormData) : string :=
  match field with
  | ListBusiness.Fname => ListBusiness.name fd
  | ListBusiness.Fdescription => ListBusiness.description fd
  | ListBusiness.Fcategory => ListBusiness.category fd
  | ListBusiness.Fphone => ListBusiness.phone fd
  | ListBusiness.FlicenseExpiredDate => ListBusiness.licenseExpiredDate fd
  | ListBusiness.Faddress => ListBusiness.address fd
  | ListBusiness.Fcity => ListBusiness.city fd
  | ListBusiness.Fstate => ListBusiness.state fd
  | ListBusiness.FzipCode => ListBusiness.zipCode fd
  | ListBusiness.Fwebsite => ListBusiness.website fd
  | ListBusiness.FfacebookPage => ListBusiness.facebookPage fd
  | ListBusiness.FtiktokUrl => ListBusiness.tiktokUrl fd
  | ListBusiness.FstartingPrice => ListBusiness.startingPrice fd
  | ListBusiness.FproductsCatalog => ListBusiness.productsCatalog fd
  end.

#[global] Instance Field_eq_dec : EqDecision ListBusiness.Field.
Proof. solve_decision. Defined.

(** What [ListBusiness] returns: the spinner while the identity is being
    resolved, the sign-in prompt when there is none, else the form. Of the
    form only the parts that depend on the state are kept. *)
Module ListBusinessView.
Import ListBusiness.

(** One [<Checkbox id=... checked=... />]. *)
Record Checkbox := { checkbox_id : string; checkbox_checked : bool }.

Record Form := {
  (** [value={formData.<field>}] of each input *)
  inputs : Field -> string;
  (** [Selected: <name>], present when a logo is selected *)
  logo_caption : option string;
  (** [Selected: <n> image(s)], present when product images are selected *)
  images_caption : option string;
  checkboxes : list Checkbox;
  (** [disabled={loading}] and the text of the submit button *)
  submit_disabled : bool;
  submit_label : string
}.

Inductive View :=
| AuthSpinner
| SignInRequired
| FormView (form : Form).

Definition render (authLoading : bool) (s : State) : View :=
  if authLoading then AuthSpinner
  else
    match user s with
    | None => SignInRequired
    | Some _ =>
        FormView
          {| inputs := fun field => get_field field (formData s);
             logo_caption :=
               match logoFile s with
               | Some file => Some ("Selected: " ++ file_name file)%string
               | None => None
               end;
             images_caption :=
               if (0 <? length (productImages s))%nat
               then Some ("Selected: " ++ show_nat (length (productImages s))
                            ++ " image(s)")%string
               else None;
             checkboxes :=
               List.map
                 (fun option =>
                    {| checkbox_id := option;
                       checkbox_checked := option_checked s option |})
                 BUSINESS_OPTIONS;
             submit_disabled := loading s;
             submit_label :=
               if loading s then "Listing Business..." else "List My Business"
          |}
    end.

End ListBusinessView.

(* ===================================================================== *)
(** ** Reference notions for event histories *)
(* ===================================================================== *)

(** The value most recently typed into [field], [current] if none was. *)
Fixpoint last_typed (evs : list ListBusiness.Event)
    (field : ListBusiness.Field) (current : string) : string :=
  match evs with
  | [] => current
  | ListBusiness.InputChange f value :: rest =>
      last_typed rest field (if decide (f = field) then value else current)
  | _ :: rest => last_typed rest field current
  end.

(** The first file of the most recent non-empty logo selection. *)
Fixpoint last_logo (evs : list ListBusiness.Event) (current : option File)
  : option File :=
  match evs with
  | [] => current
  | ListBusiness.LogoChange (Some (file :: _)) :: rest =>
      last_logo rest (Some file)
  | _ :: rest => last_logo rest current
  end.

(** The first three files of the most recent product-image selection. *)
Fixpoint last_images (evs : list ListBusiness.Event) (current : list File)
  : list File :=
  match evs with
  | [] => current
  | ListBusiness.ProductImagesChange (Some files) :: rest =>
      last_images rest (firstn 3 files)
  | _ :: rest => last_images rest current
  end.

(** The public URL that [uploadFile] returns for an upload call that the
    storage accepted: derived from the path the storage reports. *)
Definition stored_url (env : Backend) (call : Effect) : option string :=
  match call with
  | StorageUpload bucket path file opts =>
      match upload_result (storage_upload env bucket path file opts) with
      | inr data => Some (storage_getPublicUrl env bucket (data_path data))
      | inl _ => None
      end
  | _ => None
  end.

(** Clamping a star count to the five positions of a row. *)
Definition clamp_stars (z : Z) : nat := Z.to_nat (Z.max 0 (Z.min 5 z)).

(** More sample worlds. *)
Module Scenario.
Import ListBusiness.

(** A storage that refuses [menu.jpg] and stores everything else under a
    path of its own choosing. *)
Definition picky : Backend :=
  {| now := now Sample.accepting;
     storage_upload := fun _ path file _ =>
       {| settles_after := 1;
          upload_result :=
            if String.eqb (file_name file) "menu.jpg"
            then inl Sample.already_exists
            else inr {| data_path := ("v2/" ++ path)%string |} |};
     storage_getPublicUrl := storage_getPublicUrl Sample.accepting;
     db_insert := fun _ _ => None;
     rpc := fun _ => RpcResolved (Some [Sample.joes_cafe]) None |}.

(** A draft with a logo and the single product image [front.jpg]. *)
Definition small_draft : State :=
  handleProductImagesChange (Some [Sample.front_jpg])
    (handleLogoChange (Some [Sample.logo_png]) (initialState (Some Sample.alice))).

End Scenario.

(* ===================================================================== *)
(** ** Lemmas on the handler monad *)
(* ===================================================================== *)

Section SubmitLemmas.
Import ListBusiness.
Variable env : Backend.

Lemma clock_reads_iter_tick n s :
  clock_reads (Nat.iter n tick s) = n + clock_reads s.
Proof. induction n as [|n IH]; simpl; [reflexivity | now rewrite IH]. Qed.

Lemma iter_tick_fields n s :
  user (Nat.iter n tick s) = user s
  /\ loading (Nat.iter n tick s) = loading s
  /\ logoFile (Nat.iter n tick s) = logoFile s
  /\ productImages (Nat.iter n tick s) = productImages s
  /\ formData (Nat.iter n tick s) = formData s.
Proof. induction n as [|n IH]; simpl; tauto. Qed.

Lemma map_indexed_uploads u files :
  forall index s,
    map_indexed
      (fun file index =>
         (let* t := Date_now env in
          uploadFile env file "business-assets" (imagePath u t index file))%prog)
      files index s
    = (Nat.iter (length files) tick s,
       product_calls env u files index (clock_reads s),
       Returned (product_promises env u files index (clock_reads s))).
Proof.
  induction files as [|file rest IH]; intros index s; [reflexivity|].
  cbn [map_indexed]. unfold bind at 1. unfold bind at 1.
  unfold Date_now at 1. unfold uploadFile at 1. unfold bind at 1.
  cbn [emit ret].
  unfold bind at 1. rewrite IH. cbn [ret app length Nat.iter].
  cbn [product_calls product_promises clock_reads tick].
  now rewrite app_nil_r, Nat.iter_succ_r.
Qed.

(** The handler in closed form, for an authenticated user. *)
Lemma handleSubmit_authenticated s u :
  user s = Some u ->
  exists n,
    state_of (handleSubmit env s)
    = setLoading false (Nat.iter n tick (setLoading true s))
    /\ result_of (handleSubmit env s) = Returned tt
    /\ log_of (handleSubmit env s)
       = PreventDefault ::
         match logo_result env u s with
         | Thrown e => logo_calls env u s ++ catch_log e
         | Returned logoUrl =>
             logo_calls env u s ++ image_calls env u s ++
             match images_result env u s with
             | Thrown e => catch_log e
             | Returned imageUrls =>
                 let row := insert_row u (formData s) logoUrl imageUrls in
                 DbInsert "businesses" row ::
                 match db_insert env "businesses" row with
                 | Some e => catch_log e
                 | None =>
                     [Toast success_toast; Navigate "/dashboard"]
                 end
             end
         end.
Proof.
  intros Hu.
  pose proof (map_indexed_uploads u (productImages s) 0) as Hmi.
  unfold handleSubmit.
  unfold image_calls, images_result, logo_result, logo_calls, upload_promise.
  cbv [bind emit get modify try_finally try_catch ret throw await
       uploadFile Date_now state_of log_of result_of] in Hmi |- *.
  rewrite Hu.
  destruct (logoFile s) as [file|] eqn:Hlogo.
  - cbn [settled].
    destruct (upload_result _) as [e|data] eqn:Hreply.
    + exists 1. cbn. repeat split; reflexivity.
    + destruct (productImages s) as [|f0 fs] eqn:Hp. 
      * cbn. destruct (db_insert _ _ _); exists 1; cbn; repeat split; reflexivity.
      * cbn [length Nat.ltb Nat.leb]. rewrite Hmi.
        exists (S (length (f0 :: fs))). rewrite Nat.iter_succ_r.
        change (clock_reads (tick (setLoading true s))) with (S (clock_reads s)).
        change (clock_reads (setLoading true s)) with (clock_reads s).
        change (length [StorageUpload "business-assets"
                  (logoPath u (now env (clock_reads s)) file) file
                  upload_options] + clock_reads s) with (S (clock_reads s)).
        destruct (settled (Promise_all _)) as [urls|e]; 
          [destruct (db_insert _ _ _)|];
          cbn -[Nat.iter product_calls]; rewrite ?app_nil_r, <- ?app_assoc;
          repeat split; reflexivity.
  - cbn [settled length app Nat.add].
    destruct (productImages s) as [|f0 fs] eqn:Hp.
    + cbn. destruct (db_insert _ _ _); exists 0; cbn; repeat split; reflexivity.
    + cbn [length Nat.ltb Nat.leb]. rewrite Hmi.
      exists (length (f0 :: fs)).
      change (clock_reads (setLoading true s)) with (clock_reads s).
      destruct (settled (Promise_all _)) as [urls|e]; 
          [destruct (db_insert _ _ _)|];
          cbn -[Nat.iter product_calls]; rewrite ?app_nil_r, <- ?app_assoc;
          repeat split; reflexivity.
Qed.

Lemma product_calls_length u files :
  forall index k, length (product_calls env u files index k) = length files.
Proof.
  induction files as [|f rest IH]; intros; simpl; [reflexivity|].
  now rewrite IH.
Qed.

Lemma product_calls_are_uploads u files :
  forall index k,
    upload_calls (product_calls env u files index k)
    = product_calls env u files index k
    /\ insert_calls (product_calls env u files index k) = []
    /\ backend_calls (product_calls env u files index k)
       = product_calls env u files index k
    /\ omap uploaded_file (product_calls env u files index k) = files.
Proof.
  induction files as [|f rest IH]; intros index k; [repeat split|].
  destruct (IH (S index) (S k)) as (H1 & H2 & H3 & H4).
  unfold upload_calls, insert_calls, backend_calls in *. cbn.
  rewrite H1, H2, H3. repeat split; [].
  f_equal. exact H4.
Qed.

(** Each product upload call, by its position in the selection. *)
Lemma product_calls_lookup u files :
  forall index k call,
    In call (product_calls env u files index k) ->
    exists j file,
      files !! j = Some file
      /\ call = StorageUpload "business-assets"
                  (imagePath u (now env (k + j)) (index + j) file) file
                  upload_options.
Proof.
  induction files as [|f rest IH]; intros index k call Hin; [destruct Hin|].
  destruct Hin as [<-|Hin].
  - exists 0, f. now rewrite !Nat.add_0_r.
  - destruct (IH _ _ _ Hin) as (j & file & Hj & ->).
    exists (S j), file. split; [exact Hj|].
    now rewrite !Nat.add_succ_r.
Qed.

(** [Promise.all] over the product uploads rejects exactly when the
    backend answers one of the issued calls with an error, and then
    with the error of one of them. *)
Lemma product_rejection_sound u files :
  forall index k t e,
    first_rejection (product_promises env u files index k) = Some (t, e) ->
    exists call,
      In call (product_calls env u files index k)
      /\ reply_error env call = Some e.
Proof.
  induction files as [|f rest IH]; intros index k t e; [discriminate|].
  cbn [product_promises product_calls first_rejection].
  unfold upload_promise at 1 2 3; cbn [settled settled_at].
  specialize (IH (S index) (S k)).
  set (call := StorageUpload _ _ f _).
  assert (Hcall : forall e0,
             upload_result (storage_upload env "business-assets"
               (imagePath u (now env k) index f) f upload_options) = inl e0 ->
             reply_error env call = Some e0).
  { intros e0 He0. unfold call. cbn. now rewrite He0. }
  destruct (upload_result _) as [e0|data].
  - destruct (first_rejection _) as [[t' e']|].
    + destruct (t' <? _)%nat; intros [= <- <-].
      * destruct (IH _ _ eq_refl) as (c & Hc & Hr).
        exists c. split; [now right | exact Hr].
      * exists call. split; [now left | now apply Hcall].
    + intros [= <- <-]. exists call. split; [now left | now apply Hcall].
  - intros H. destruct (IH _ _ H) as (c & Hc & Hr).
    exists c. split; [now right | exact Hr].
Qed.

Lemma product_rejection_complete u files :
  forall index k call e,
    In call (product_calls env u files index k) ->
    reply_error env call = Some e ->
    first_rejection (product_promises env u files index k) <> None.
Proof.
  induction files as [|f rest IH]; intros index k call e Hin Herr;
    [destruct Hin|].
  cbn [product_promises product_calls first_rejection] in *.
  unfold upload_promise at 1 2 3; cbn [settled settled_at].
  destruct Hin as [<-|Hin].
  - cbn in Herr. destruct (upload_result _); [|discriminate].
    destruct (first_rejection _) as [[t' e']|]; [|discriminate].
    destruct (t' <? _)%nat; discriminate.
  - specialize (IH _ _ _ _ Hin Herr).
    destruct (upload_result _).
    + destruct (first_rejection _) as [[t' e']|]; [|discriminate].
      destruct (t' <? _)%nat; discriminate.
    + exact IH.
Qed.

Lemma fulfilled_values_length {A} (ps : list (Promise A)) :
  first_rejection ps = None -> length (fulfilled_values ps) = length ps.
Proof.
  induction ps as [|p rest IH]; [reflexivity|].
  cbn [first_rejection fulfilled_values length]. destruct (settled p).
  - intros H. cbn [length]. now rewrite IH.
  - destruct (first_rejection rest) as [[t e']|]; [|discriminate].
    destruct (t <? _)%nat; discriminate.
Qed.

Lemma product_promises_length u files :
  forall index k, length (product_promises env u files index k) = length files.
Proof.
  induction files as [|f rest IH]; intros; simpl; [reflexivity|].
  now rewrite IH.
Qed.

Lemma logo_calls_are_uploads u s :
  upload_calls (logo_calls env u s) = logo_calls env u s
  /\ insert_calls (logo_calls env u s) = []
  /\ backend_calls (logo_calls env u s) = logo_calls env u s
  /\ uploaded_files (logo_calls env u s)
     = match logoFile s with Some file => [file] | None => [] end.
Proof. unfold logo_calls. destruct (logoFile s); repeat split. Qed.

Lemma image_calls_are_uploads u s :
  upload_calls (image_calls env u s) = image_calls env u s
  /\ insert_calls (image_calls env u s) = []
  /\ backend_calls (image_calls env u s) = image_calls env u s
  /\ uploaded_files (image_calls env u s) = productImages s.
Proof. apply product_calls_are_uploads. Qed.

Lemma logo_accepted u s url call :
  logo_result env u s = Returned url ->
  In call (logo_calls env u s) -> reply_error env call = None.
Proof.
  unfold logo_result, logo_calls, upload_promise.
  destruct (logoFile s) as [file|]; [|intros _ []].
  cbn [settled]. intros H [<-|[]]. cbn.
  now destruct (upload_result _).
Qed.

Lemma logo_refused u s e :
  logo_result env u s = Thrown e ->
  exists call,
    logo_calls env u s = [call] /\ reply_error env call = Some e.
Proof.
  unfold logo_result, logo_calls, upload_promise.
  destruct (logoFile s) as [file|]; [|discriminate].
  cbn [settled]. intros H. eexists. split; [reflexivity|].
  cbn. destruct (upload_result _); [congruence | discriminate].
Qed.

Lemma images_accepted u s urls :
  images_result env u s = Returned urls ->
  length urls = length (productImages s)
  /\ forall call, In call (image_calls env u s) -> reply_error env call = None.
Proof.
  unfold images_result, image_calls, Promise_all.
  destruct (first_rejection _) as [[t e]|] eqn:Hrej; [discriminate|].
  cbn [settled]. intros [= <-]. split.
  - now rewrite fulfilled_values_length, product_promises_length.
  - intros call Hin. destruct (reply_error env call) as [e|] eqn:He; [|reflexivity].
    now destruct (product_rejection_complete _ _ _ _ _ _ Hin He).
Qed.

Lemma images_refused u s e :
  images_result env u s = Thrown e ->
  exists call,
    In call (image_calls env u s) /\ reply_error env call = Some e.
Proof.
  unfold images_result, image_calls, Promise_all.
  destruct (first_rejection _) as [[t e']|] eqn:Hrej; [|discriminate].
  cbn [settled]. intros [= <-].
  exact (product_rejection_sound _ _ _ _ _ _ Hrej).
Qed.

Lemma no_insert_among_uploads u s table row :
  ~ In (DbInsert table row) (logo_calls env u s ++ image_calls env u s).
Proof.
  intros Hin.
  assert (H : In (DbInsert table row)
                (insert_calls (logo_calls env u s ++ image_calls env u s))).
  { apply List.filter_In. now split. }
  unfold insert_calls in H. rewrite List.filter_app in H.
  destruct (logo_calls_are_uploads u s) as (_ & H1 & _).
  destruct (image_calls_are_uploads u s) as (_ & H2 & _).
  unfold insert_calls in H1, H2. now rewrite H1, H2 in H.
Qed.

(** Every insert call of a submission carries the row built from the
    draft and from the URLs of the accepted uploads. *)
Lemma insert_call_inv s u table row :
  user s = Some u ->
  In (DbInsert table row) (log_of (handleSubmit env s)) ->
  table = "businesses"
  /\ exists logoUrl imageUrls,
      logo_result env u s = Returned logoUrl
      /\ images_result env u s = Returned imageUrls
      /\ row = insert_row u (formData s) logoUrl imageUrls.
Proof.
  intros Hu.
  destruct (handleSubmit_authenticated s u Hu) as (n & _ & _ & Hlog).
  rewrite Hlog. clear Hlog. intros [Hin|Hin]; [discriminate|].
  pose proof (no_insert_among_uploads u s table row) as Hno.
  destruct (logo_result env u s) as [logoUrl|e].
  - rewrite app_assoc in Hin. apply in_app_or in Hin.
    destruct Hin as [Hin|Hin]; [now destruct Hno|].
    destruct (images_result env u s) as [imageUrls|e].
    + cbn zeta in Hin. destruct Hin as [[= <- <-]|Hin].
      * split; [reflexivity|]. now exists logoUrl, imageUrls.
      * destruct (db_insert _ _ _); cbn in Hin; intuition discriminate.
    + cbn in Hin; intuition discriminate.
  - apply in_app_or in Hin. destruct Hin as [Hin|Hin].
    + destruct Hno. apply in_or_app. now left.
    + cbn in Hin; intuition discriminate.
Qed.

(** Submitting changes nothing in the draft, whoever submits. *)
Lemma handleSubmit_keeps_draft s :
  user (state_of (handleSubmit env s)) = user s
  /\ logoFile (state_of (handleSubmit env s)) = logoFile s
  /\ productImages (state_of (handleSubmit env s)) = productImages s
  /\ formData (state_of (handleSubmit env s)) = formData s.
Proof.
  destruct (user s) as [u|] eqn:Hu.
  - destruct (handleSubmit_authenticated s u Hu) as (n & -> & _).
    destruct (iter_tick_fields n (setLoading true s))
      as (H1 & _ & H2 & H3 & H4).
    cbn [user logoFile productImages formData setLoading].
    rewrite H1, H2, H3, H4. cbn. now rewrite Hu.
  - unfold handleSubmit. cbv [bind emit get ret state_of].
    rewrite Hu. cbn. now rewrite Hu.
Qed.

Lemma handleSubmit_anonymous_log s :
  user s = None ->
  log_of (handleSubmit env s)
  = [PreventDefault; Toast auth_required_toast; Navigate "/auth/signin"].
Proof.
  intros Hu. unfold handleSubmit. cbv [bind emit get ret log_of].
  now rewrite Hu.
Qed.

(** The product-image selection never holds more than three files, and
    no insert ever carries more than three product-image URLs. *)
Lemma run_caps_product_images evs :
  forall s,
    length (productImages s) <= 3 ->
    length (productImages (fst (run env evs s))) <= 3
    /\ forall table row urls,
        In (DbInsert table row) (snd (run env evs s)) ->
        Row.product_images row = Some urls ->
        length urls <= 3.
Proof.
  induction evs as [|ev rest IH]; intros s Hs; [split; [exact Hs|intros ? ? ? []]|].
  cbn [run].
  destruct (step env ev s) as [s1 log1] eqn:Hstep.
  assert (Hs1 : length (productImages s1) <= 3
                /\ forall table row urls,
                    In (DbInsert table row) log1 ->
                    Row.product_images row = Some urls ->
                    length urls <= 3).
  { destruct ev; cbn [step] in Hstep.
    1-4, 6: injection Hstep as <- <-; split; [|intros ? ? ? []].
    - exact Hs.
    - exact Hs.
    - unfold handleLogoChange. destruct files as [[|f fs]|]; exact Hs.
    - unfold handleProductImagesChange. destruct files as [fs|]; [|exact Hs].
      cbn. rewrite length_take. lia.
    - exact Hs.
    - pose proof (handleSubmit_keeps_draft s) as (_ & _ & Hkeep & _).
      unfold state_of in Hkeep.
      destruct (user s) as [u|] eqn:Hu.
      + pose proof (insert_call_inv s u) as Hinv. unfold log_of in Hinv.
        destruct (handleSubmit env s) as [[s' log'] r].
        injection Hstep as <- <-. cbn in Hkeep, Hinv |- *.
        split; [now rewrite Hkeep|].
        intros table row urls Hin Hrow.
        destruct (Hinv table row Hu Hin) as (_ & lu & ius & _ & Hir & ->).
        destruct (images_accepted u s ius Hir) as (Hlen & _).
        cbn in Hrow. unfold nonempty_or_null in Hrow.
        destruct (0 <? length ius)%nat; [|discriminate].
        injection Hrow as <-. lia.
      + pose proof (handleSubmit_anonymous_log s Hu) as Hlog.
        unfold log_of in Hlog.
        destruct (handleSubmit env s) as [[s' log'] r].
        injection Hstep as <- <-. cbn in Hkeep, Hlog |- *.
        split; [now rewrite Hkeep|].
        subst log'. cbn. intuition discriminate. }
  destruct Hs1 as (Hlen1 & Hins1).
  destruct (IH s1 Hlen1) as (Hlen2 & Hins2).
  destruct (run env rest s1) as [s2 log2]. cbn in *.
  split; [exact Hlen2|].
  intros table row urls Hin. apply in_app_or in Hin.
  destruct Hin; eauto.
Qed.

(** The option list of the draft holds, as a set, the labels that are
    ticked. *)
Lemma run_tracks_checked_set evs :
  forall s,
    list_to_set (options (formData (fst (run env evs s))))
    = checked_set evs (list_to_set (options (formData s))).
Proof.
  induction evs as [|ev rest IH]; intros s; [reflexivity|].
  cbn [run].
  destruct (step env ev s) as [s1 log1] eqn:Hstep.
  specialize (IH s1). destruct (run env rest s1) as [s2 log2].
  cbn [fst] in *. rewrite IH. clear IH.
  destruct ev; cbn [step] in Hstep.
  1, 3, 4, 6: injection Hstep as <- _; cbn [checked_set].
  - reflexivity.
  - unfold handleLogoChange. now destruct files as [[|f fs]|].
  - unfold handleProductImagesChange. now destruct files as [fs|].
  - reflexivity.
  - injection Hstep as <- _. destruct checked; cbn [checked_set]; f_equal.
    + cbn. rewrite list_to_set_app_L. cbn.
      now rewrite (right_id_L ∅ (∪)).
    + cbn. apply set_eq. intros x.
      rewrite elem_of_difference, !elem_of_list_to_set, !list_elem_of_In.
      rewrite List.filter_In, elem_of_singleton.
      rewrite negb_true_iff, String.eqb_neq. tauto.
  - pose proof (handleSubmit_keeps_draft s) as (_ & _ & _ & Hkeep).
    unfold state_of in Hkeep.
    destruct (handleSubmit env s) as [[s' log'] r].
    injection Hstep as <- _. cbn in Hkeep. cbn [checked_set].
    now rewrite Hkeep.
Qed.

(** An insert is only ever issued for an authenticated user, with the
    row built from the draft. *)
Lemma insert_call_row s table row :
  In (DbInsert table row) (log_of (handleSubmit env s)) ->
  exists u logoUrl imageUrls,
    user s = Some u
    /\ row = insert_row u (formData s) logoUrl imageUrls.
Proof.
  intros Hin. destruct (user s) as [u|] eqn:Hu.
  - destruct (insert_call_inv s u table row Hu Hin)
      as (_ & lu & ius & _ & _ & ->).
    now exists u, lu, ius.
  - rewrite (handleSubmit_anonymous_log s Hu) in Hin.
    cbn in Hin. intuition discriminate.
Qed.
End SubmitLemmas.

(* ===================================================================== *)
(** ** The submit handler: who may submit, and what is uploaded *)
(* ===================================================================== *)

Section Submission.
Import ListBusiness.
Variable env : Backend.

(** C4. A submit while no identity is present issues no upload and no
    insert: the handler shows the sign-in toast, navigates to the
    sign-in screen and returns, leaving the component state as it was. *)
Theorem submit_without_identity_is_blocked (s : State) :
  user s = None ->
  handleSubmit env s
  = (s,
     [PreventDefault; Toast auth_required_toast; Navigate "/auth/signin"],
     Returned tt)
  /\ backend_calls (log_of (handleSubmit env s)) = [].
Proof.
  intros Hu.
  assert (H : handleSubmit env s
              = (s, [PreventDefault; Toast auth_required_toast;
                     Navigate "/auth/signin"], Returned tt)).
  { unfold handleSubmit.
    cbv [bind emit get ret]. now rewrite Hu. }
  split; [exact H | now rewrite H].
Qed.

(** C3. With a logo selected, the first backend call of a submission is
    the logo upload. If the backend accepts it, the submission issues
    one upload per product image on top of it (1 + N in all); if the
    backend refuses it, the logo upload is the only upload and no insert
    is issued. With neither a logo nor product images, the only backend
    call is the insert. *)
Theorem submit_upload_calls (s : State) (u : User) :
  user s = Some u ->
  (forall file,
      logoFile s = Some file ->
      let logo_call :=
        StorageUpload "business-assets"
          (logoPath u (now env (clock_reads s)) file) file upload_options in
      (exists rest,
          backend_calls (log_of (handleSubmit env s)) = logo_call :: rest)
      /\ match reply_error env logo_call with
         | None =>
             length (upload_calls (log_of (handleSubmit env s)))
             = 1 + length (productImages s)
         | Some _ =>
             upload_calls (log_of (handleSubmit env s)) = [logo_call]
             /\ insert_calls (log_of (handleSubmit env s)) = []
         end)
  /\ (logoFile s = None ->
      productImages s = [] ->
      upload_calls (log_of (handleSubmit env s)) = []
      /\ exists row,
          backend_calls (log_of (handleSubmit env s))
          = [DbInsert "businesses" row]).
Proof.
  intros Hu.
  destruct (handleSubmit_authenticated env s u Hu) as (n & _ & _ & Hlog).
  rewrite Hlog. clear Hlog.
  unfold logo_result, image_calls, images_result, logo_calls, upload_promise.
  split.
  - intros file Hlogo. rewrite Hlogo. cbn [settled].
    unfold reply_error.
    destruct (upload_result _) as [e|data].
    + split; [eexists; cbn; reflexivity | split; reflexivity].
    + split; [eexists; cbn; reflexivity|].
      match goal with
      | |- context [product_calls env u ?fs ?i ?k] =>
          destruct (product_calls_are_uploads env u fs i k) as (H1 & _)
      end.
      unfold upload_calls in *. cbn [List.filter is_upload app].
      rewrite List.filter_app, H1.
      rewrite length_cons, length_app, product_calls_length.
      destruct (settled (Promise_all _));
        [destruct (db_insert _ _ _)|]; cbn; lia.
  - intros Hlogo Hp. rewrite Hlogo, Hp. cbn.
    destruct (db_insert _ _ _); split; eauto.
Qed.

(** C10. Every insert issued by a submission of the authenticated user
    [u] carries [u]'s identity in [owner_id]: the handler sets it
    itself. *)
Theorem insert_owner_is_submitter (s : State) (u : User)
    (table : string) (row : Row.t) :
  user s = Some u ->
  In (DbInsert table row) (log_of (handleSubmit env s)) ->
  Row.owner_id row = id u.
Proof.
  intros Hu Hin.
  destruct (insert_call_inv env s u table row Hu Hin)
    as (_ & logoUrl & imageUrls & _ & _ & ->).
  reflexivity.
Qed.

(** C9. Every upload issued by a submission of the authenticated user
    [u] goes to the bucket with [upsert] off. Its path is
    [logos/<id>/<timestamp>_<filename>] for the logo, and
    [products/<id>/<timestamp>_<position>_<filename>] for the product
    image at position [i], the timestamp being the clock reading taken
    for that file. When the backend refuses the upload, the submission
    issues no insert and shows the error toast. *)
Theorem upload_paths_and_options (s : State) (u : User)
    (bucket path : string) (file : File) (opts : UploadOptions) :
  user s = Some u ->
  In (StorageUpload bucket path file opts) (log_of (handleSubmit env s)) ->
  bucket = "business-assets"
  /\ upsert opts = false
  /\ ((logoFile s = Some file
       /\ path = ("logos/" ++ id u ++ "/"
                 ++ show_Z (now env (clock_reads s)) ++ "_"
                 ++ file_name file)%string)
      \/ (exists i,
             productImages s !! i = Some file
             /\ i < length (productImages s)
             /\ path = ("products/" ++ id u ++ "/"
                       ++ show_Z
                            (now env
                               (match logoFile s with
                                | Some _ => 1
                                | None => 0
                                end + clock_reads s + i))
                       ++ "_" ++ show_nat i ++ "_" ++ file_name file)%string))
  /\ (forall e,
        reply_error env (StorageUpload bucket path file opts) = Some e ->
        insert_calls (log_of (handleSubmit env s)) = []
        /\ exists e', In (Toast (error_toast e'))
                        (log_of (handleSubmit env s))).
Proof.
  intros Hu Hin.
  destruct (handleSubmit_authenticated env s u Hu) as (n & _ & _ & Hlog).
  rewrite Hlog in *. clear Hlog.
  destruct Hin as [Hin|Hin]; [discriminate|].
  destruct (logo_calls_are_uploads env u s) as (_ & HLi & _).
  destruct (image_calls_are_uploads env u s) as (_ & HIi & _).
  unfold insert_calls in *.
  assert (Hshape :
    In (StorageUpload bucket path file opts)
       (logo_calls env u s ++ image_calls env u s) ->
    bucket = "business-assets"
    /\ upsert opts = false
    /\ ((logoFile s = Some file
         /\ path = ("logos/" ++ id u ++ "/"
                   ++ show_Z (now env (clock_reads s)) ++ "_"
                   ++ file_name file)%string)
        \/ (exists i,
               productImages s !! i = Some file
               /\ i < length (productImages s)
               /\ path = ("products/" ++ id u ++ "/"
                         ++ show_Z
                              (now env
                                 (match logoFile s with
                                  | Some _ => 1
                                  | None => 0
                                  end + clock_reads s + i))
                         ++ "_" ++ show_nat i ++ "_" ++ file_name file)%string))).
  { intros H. apply in_app_or in H. destruct H as [H|H].
    - unfold logo_calls in H. destruct (logoFile s) as [f|]; [|destruct H].
      destruct H as [[= <- <- <- <-]|[]]. repeat split. now left.
    - unfold image_calls in H.
      destruct (product_calls_lookup env u _ _ _ _ H)
        as (j & f & Hj & [= -> -> -> ->]).
      repeat split. right. exists j.
      split; [exact Hj|]. split; [now apply lookup_lt_Some in Hj|].
      unfold logo_calls. now destruct (logoFile s). }
  destruct (logo_result env u s) as [logoUrl|e1] eqn:Hlr.
  - rewrite app_assoc in Hin. apply in_app_or in Hin.
    destruct (images_result env u s) as [imageUrls|e2] eqn:Hir.
    + destruct Hin as [Hin|Hin].
      * destruct (Hshape Hin) as (Hb & Ho & Hp).
        split; [exact Hb|]. split; [exact Ho|]. split; [exact Hp|].
        intros e He; exfalso.
        apply in_app_or in Hin. destruct Hin as [Hin|Hin].
        -- now rewrite (logo_accepted env u s _ _ Hlr Hin) in He.
        -- destruct (images_accepted env u s _ Hir) as (_ & Hok).
           now rewrite (Hok _ Hin) in He.
      * cbn zeta in Hin. destruct Hin as [Hin|Hin]; [discriminate|].
        destruct (db_insert _ _ _); cbn in Hin; intuition discriminate.
    + destruct Hin as [Hin|Hin]; [|cbn in Hin; intuition discriminate].
      destruct (Hshape Hin) as (Hb & Ho & Hp).
      split; [exact Hb|]. split; [exact Ho|]. split; [exact Hp|].
      intros e He. split.
      * cbn [List.filter is_insert]. rewrite !List.filter_app, HLi, HIi. reflexivity.
      * exists e2. right. apply in_or_app. right. apply in_or_app. right.
        cbn. tauto.
  - apply in_app_or in Hin.
    destruct Hin as [Hin|Hin]; [|cbn in Hin; intuition discriminate].
    assert (Hin' : In (StorageUpload bucket path file opts)
                      (logo_calls env u s ++ image_calls env u s))
      by (apply in_or_app; now left).
    destruct (Hshape Hin') as (Hb & Ho & Hp).
    split; [exact Hb|]. split; [exact Ho|]. split; [exact Hp|].
    intros e He. split.
    + cbn [List.filter is_insert]. rewrite !List.filter_app, HLi. reflexivity.
    + exists e1. right. apply in_or_app. right. cbn. tauto.
Qed.

(** C8. When the backend answers any call of a submission (an upload or
    the insert) with an error, the handler logs one of the reported
    errors [e] and shows the error toast for it, whose text is the
    message of [e] when it has a non-empty one and the fallback text
    otherwise. Nothing is issued after the toast; before it only
    backend calls are. The draft (form fields, logo, product images) is
    as it was, the loading flag is cleared, the handler navigates
    nowhere, and no file is uploaded twice nor the insert repeated. *)
Theorem failed_submission_reports_and_keeps_draft (s : State) (u : User)
    (call : Effect) (e0 : JSError) :
  user s = Some u ->
  In call (log_of (handleSubmit env s)) ->
  reply_error env call = Some e0 ->
  exists e failing,
    In failing (log_of (handleSubmit env s))
    /\ reply_error env failing = Some e
    /\ log_of (handleSubmit env s)
       = PreventDefault :: backend_calls (log_of (handleSubmit env s))
           ++ [ConsoleError "Error listing business:" e;
               Toast (error_toast e)]
    /\ toast_description (error_toast e)
       = match message e with
         | Some m =>
             if String.eqb m ""
             then "Failed to list business. Please try again."
             else m
         | None => "Failed to list business. Please try again."
         end
    /\ formData (state_of (handleSubmit env s)) = formData s
    /\ logoFile (state_of (handleSubmit env s)) = logoFile s
    /\ productImages (state_of (handleSubmit env s)) = productImages s
    /\ loading (state_of (handleSubmit env s)) = false
    /\ (forall to, ~ In (Navigate to) (log_of (handleSubmit env s)))
    /\ uploaded_files (log_of (handleSubmit env s))
         `prefix_of` selected_files s
    /\ length (insert_calls (log_of (handleSubmit env s))) <= 1.
Proof.
  intros Hu Hin Herr.
  destruct (handleSubmit_authenticated env s u Hu) as (n & Hst & _ & Hlog).
  rewrite Hst. rewrite Hlog in *. clear Hlog Hst.
  destruct (iter_tick_fields n (setLoading true s))
    as (_ & _ & Hf2 & Hf3 & Hf4).
  destruct (logo_calls_are_uploads env u s) as (HLu & HLi & HLb & HLf).
  destruct (image_calls_are_uploads env u s) as (HIu & HIi & HIb & HIf).
  unfold insert_calls, backend_calls, uploaded_files, selected_files in *.
  assert (Hnonav : forall to tail,
             ~ In (Navigate to) tail ->
             ~ In (Navigate to)
                 (PreventDefault
                    :: logo_calls env u s ++ image_calls env u s ++ tail)).
  { intros to tail Ht [H|H]; [discriminate|].
    rewrite app_assoc in H. apply in_app_or in H. destruct H as [H|H];
      [|now apply Ht].
    assert (H' : In (Navigate to)
                   (List.filter is_backend_call
                      (logo_calls env u s ++ image_calls env u s))).
    { rewrite List.filter_app, HLb, HIb. exact H. }
    apply List.filter_In in H'. now destruct H'. }
  destruct (logo_result env u s) as [logoUrl|e1] eqn:Hlr.
  - destruct (images_result env u s) as [imageUrls|e2] eqn:Hir.
    + cbn zeta in *.
      set (row := insert_row u (formData s) logoUrl imageUrls) in *.
      destruct (db_insert env "businesses" row) as [e3|] eqn:Hdb.
      * exists e3, (DbInsert "businesses" row).
        split; [right; apply in_or_app; right; apply in_or_app; right;
                now left|].
        split; [exact Hdb|].
        split.
        { cbn [List.filter is_backend_call].
          rewrite !List.filter_app, HLb, HIb. cbn.
          now rewrite <- !app_assoc. }
        split; [reflexivity|].
        split; [exact Hf4|]. split; [exact Hf2|]. split; [exact Hf3|].
        split; [reflexivity|].
        split.
        { intros to. apply Hnonav. cbn. intuition discriminate. }
        split.
        { cbn [omap list_omap uploaded_file].
          rewrite !omap_app, HLf, HIf. cbn. rewrite app_nil_r.
          reflexivity. }
        cbn [List.filter is_insert]. rewrite !List.filter_app, HLi, HIi.
        cbn. lia.
      * exfalso. destruct Hin as [<-|Hin]; [discriminate|].
        apply in_app_or in Hin. destruct Hin as [Hin|Hin].
        { now rewrite (logo_accepted env u s _ _ Hlr Hin) in Herr. }
        apply in_app_or in Hin. destruct Hin as [Hin|Hin].
        { destruct (images_accepted env u s _ Hir) as (_ & Hok).
          now rewrite (Hok _ Hin) in Herr. }
        destruct Hin as [<-|[<-|[<-|[]]]]; cbn in Herr; congruence.
    + destruct (images_refused env u s e2 Hir) as (failing & Hfin & Hferr).
      exists e2, failing.
      split; [right; apply in_or_app; right; apply in_or_app; now left|].
      split; [exact Hferr|].
      split.
      { cbn [List.filter is_backend_call].
        rewrite !List.filter_app, HLb, HIb. cbn.
        now rewrite app_nil_r, <- app_assoc. }
      split; [reflexivity|].
      split; [exact Hf4|]. split; [exact Hf2|]. split; [exact Hf3|].
      split; [reflexivity|].
      split.
      { intros to. apply Hnonav. cbn. intuition discriminate. }
      split.
      { cbn [omap list_omap uploaded_file].
        rewrite !omap_app, HLf, HIf. cbn. rewrite app_nil_r.
        reflexivity. }
      cbn [List.filter is_insert]. rewrite !List.filter_app, HLi, HIi.
      cbn. lia.
  - destruct (logo_refused env u s e1 Hlr) as (failing & Hcalls & Hferr).
    exists e1, failing.
    split; [right; apply in_or_app; left; rewrite Hcalls; now left|].
    split; [exact Hferr|].
    split.
    { cbn [List.filter is_backend_call].
      rewrite !List.filter_app, HLb. cbn. now rewrite app_nil_r. }
    split; [reflexivity|].
    split; [exact Hf4|]. split; [exact Hf2|]. split; [exact Hf3|].
    split; [reflexivity|].
    split.
    { intros to [H|H]; [discriminate|].
      rewrite Hcalls in H. cbn in H.
      destruct H as [->|H]; [discriminate | intuition discriminate]. }
    split.
    { cbn [omap list_omap uploaded_file].
      rewrite !omap_app, HLf. cbn. rewrite app_nil_r.
      apply prefix_app_r. reflexivity. }
    cbn [List.filter is_insert]. rewrite !List.filter_app, HLi.
    cbn. lia.
Qed.
End Submission.

(* ===================================================================== *)
(** ** The draft: options, product images, optional fields *)
(* ===================================================================== *)

Section Draft.
Import ListBusiness.
Variable env : Backend.

(** C5. After any sequence of events on the mounted form, the
    [business_options] of every insert a submit issues is [null] when no
    option is ticked and is the option list of the draft otherwise; that
    list holds, as a set, exactly the ticked options, which are also the
    ones whose checkbox shows as checked. Two histories that leave the
    same options ticked give the same set. *)
Theorem business_options_is_checked_set (u : option User)
    (evs : list Event) :
  let s := fst (run env evs (initialState u)) in
  (forall table row,
      In (DbInsert table row) (log_of (handleSubmit env s)) ->
      Row.business_options row
      = if decide (checked_set evs ∅ = ∅) then None
        else Some (options (formData s)))
  /\ list_to_set (options (formData s)) = checked_set evs ∅
  /\ (forall label,
        option_checked s label = true <-> label ∈ checked_set evs ∅)
  /\ (forall evs',
        checked_set evs' ∅ = checked_set evs ∅ ->
        list_to_set (options (formData (fst (run env evs' (initialState u)))))
        =@{gset string} list_to_set (options (formData s))).
Proof.
  intros s.
  assert (Hset : list_to_set (options (formData s)) = checked_set evs ∅).
  { unfold s. now rewrite run_tracks_checked_set. }
  split; [|split; [exact Hset|split]].
  - intros table row Hin.
    destruct (insert_call_row env s table row Hin) as (o & lu & ius & _ & ->).
    cbn. unfold nonempty_or_null. rewrite <- Hset.
    destruct (options (formData s)) as [|x l]; cbn.
    + now rewrite decide_True.
    + rewrite decide_False; [reflexivity|].
      intros Hempty.
      apply (not_elem_of_empty (C := gset string) x).
      rewrite <- Hempty.
      now apply elem_of_union_l, elem_of_singleton.
  - intros label. rewrite <- Hset, elem_of_list_to_set, list_elem_of_In.
    unfold option_checked. rewrite existsb_exists. split.
    + intros (x & Hx & Heq). apply String.eqb_eq in Heq. now subst.
    + intros Hx. exists label. split; [exact Hx | apply String.eqb_refl].
  - intros evs' Heq. rewrite Hset, <- Heq.
    now rewrite run_tracks_checked_set.
Qed.

(** C6. A file-selection event on the product-images input keeps the
    first three of the selected files. After any sequence of events the
    selection has at most three files, and every insert issued along the
    way lists at most three product-image URLs. *)
Theorem product_images_capped_at_three :
  (forall s files,
      productImages (handleProductImagesChange (Some files) s)
      = firstn 3 files)
  /\ (forall u evs,
        length (productImages (fst (run env evs (initialState u)))) <= 3)
  /\ (forall u evs table row urls,
        In (DbInsert table row) (snd (run env evs (initialState u))) ->
        Row.product_images row = Some urls ->
        length urls <= 3).
Proof.
  split; [reflexivity|]. split.
  - intros u evs.
    apply (run_caps_product_images env evs (initialState u)). cbn. lia.
  - intros u evs.
    apply (run_caps_product_images env evs (initialState u)). cbn. lia.
Qed.

(** What each optional text field of the draft becomes in the row of an
    insert: five of them go through [|| null], [website] is passed as it
    is. *)
Lemma optional_fields_of_row s table row :
  In (DbInsert table row) (log_of (handleSubmit env s)) ->
  Row.facebook_page row = or_null (facebookPage (formData s))
  /\ Row.tiktok_url row = or_null (tiktokUrl (formData s))
  /\ Row.starting_price row = or_null (startingPrice (formData s))
  /\ Row.products_catalog row = or_null (productsCatalog (formData s))
  /\ Row.license_expired_date row
     = or_null (licenseExpiredDate (formData s))
  /\ Row.website row = Some (website (formData s)).
Proof.
  intros Hin.
  destruct (insert_call_row env s table row Hin) as (o & lu & ius & _ & ->).
  repeat split.
Qed.

Lemma or_null_empty : or_null "" = None.
Proof. reflexivity. Qed.

Lemma or_null_never_empty s : or_null s <> Some "".
Proof.
  unfold or_null. destruct (String.eqb_spec s ""); congruence.
Qed.
End Draft.

(** C2, at a draft whose optional fields are all empty: the insert that
    the submit issues carries [website] as the empty string, not as
    [null], while the other optional text fields are [null]. *)
Theorem empty_website_is_inserted_as_empty_string :
  exists row,
    log_of (ListBusiness.handleSubmit Sample.accepting Sample.blank)
    = [PreventDefault; DbInsert "businesses" row;
       Toast ListBusiness.success_toast; Navigate "/dashboard"]
    /\ ListBusiness.website (ListBusiness.formData Sample.blank) = ""
    /\ Row.website row = Some ""
    /\ Row.website row <> None
    /\ Row.facebook_page row = None
    /\ Row.tiktok_url row = None
    /\ Row.starting_price row = None
    /\ Row.products_catalog row = None
    /\ Row.license_expired_date row = None.
Proof.
  eexists. split; [vm_compute; reflexivity|].
  cbn. repeat split; discriminate.
Qed.

(* ===================================================================== *)
(** ** The gallery: fetch and star rows *)
(* ===================================================================== *)

Section Gallery.
Import PopularBusinesses.
Variable env : Backend.

(** C7. When the remote query ends in an error (resolved with an error,
    or rejected), [fetchBusinesses] logs it and returns normally; the
    business list is what it was, the loading flag is cleared, and the
    component renders the gallery of the cards it had (none on first
    load), not an error view. *)
Theorem fetch_error_keeps_list (s : State) (err : JSError) :
  reply_error env (Rpc "get_public_businesses") = Some err ->
  exists label,
    fetchBusinesses env s
    = (setLoading false s,
       [Rpc "get_public_businesses"; ConsoleError label err],
       Returned tt)
    /\ businesses (state_of (fetchBusinesses env s)) = businesses s
    /\ loading (state_of (fetchBusinesses env s)) = false
    /\ render (state_of (fetchBusinesses env s))
       = GalleryView (List.map renderCard (businesses s))
    /\ (businesses s = [] ->
        render (state_of (fetchBusinesses env s)) = GalleryView []).
Proof.
  intros Herr. cbn in Herr.
  unfold fetchBusinesses.
  cbv [bind emit modify try_finally try_catch ret throw state_of].
  destruct (rpc env "get_public_businesses") as [data error|e].
  - subst error. exists "Error fetching businesses:". cbn.
    repeat split. intros ->. reflexivity.
  - injection Herr as ->. exists "Error:". cbn.
    repeat split. intros ->. reflexivity.
Qed.
End Gallery.

(** The star row of the detail card fills [floor(rating)] stars. *)
Lemma card_stars_fill_floor (rating : Q) :
  (0 <= Qfloor rating <= 5)%Z ->
  filled_count (BusinessCard.renderStars rating) = Z.to_nat (Qfloor rating).
Proof.
  intros Hr. unfold filled_count, BusinessCard.renderStars.
  cbn [seq List.map List.filter star_filled Z.of_nat Pos.of_succ_nat
       Pos.succ].
  repeat match goal with
         | |- context [(?a <? ?b)%Z] => destruct (Z.ltb_spec a b)
         end; cbn [length]; lia.
Qed.

Lemma Qltb_index (i : nat) (rating : Q) :
  Qltb (index_number i) rating = (Z.of_nat i <? Qceiling rating)%Z.
Proof.
  unfold Qltb, index_number.
  destruct (Z.ltb_spec (Z.of_nat i) (Qceiling rating)) as [Hlt|Hge].
  - apply negb_true_iff. destruct (Qle_bool rating _) eqn:Hle; [|reflexivity].
    exfalso. apply Qle_bool_iff in Hle.
    pose proof (Qceiling_lt rating) as Hc.
    assert (Hq : (inject_Z (Qceiling rating - 1) < inject_Z (Z.of_nat i))%Q)
      by (eapply Qlt_le_trans; eassumption).
    rewrite <- Zlt_Qlt in Hq. lia.
  - apply negb_false_iff, Qle_bool_iff.
    eapply Qle_trans; [apply Qle_ceiling|].
    now rewrite <- Zle_Qle.
Qed.

(** The star row of the gallery fills every position below the rating,
    that is [ceil(rating)] stars. *)
Lemma gallery_stars_fill_ceiling (rating : Q) :
  (0 <= Qceiling rating <= 5)%Z ->
  filled_count (PopularBusinesses.renderStars rating)
  = Z.to_nat (Qceiling rating).
Proof.
  intros Hr. unfold filled_count, PopularBusinesses.renderStars.
  cbn [seq List.map List.filter star_filled].
  rewrite !Qltb_index.
  cbn [Z.of_nat Pos.of_succ_nat Pos.succ].
  repeat match goal with
         | |- context [(?a <? ?b)%Z] => destruct (Z.ltb_spec a b)
         end; cbn [length]; lia.
Qed.

(** C1, at a record rated 3.7: the gallery card shows four filled stars
    and one unfilled, where [floor(3.7)] is three; the detail card, on the
    same rating, shows three filled and two unfilled. *)
Theorem gallery_fills_four_stars_at_3_7 :
  Business.rating Sample.joes_cafe == 37 # 10
  /\ Qfloor (Business.rating Sample.joes_cafe) = 3%Z
  /\ length (PopularBusinesses.stars
               (PopularBusinesses.renderCard Sample.joes_cafe)) = 5
  /\ filled_count
       (PopularBusinesses.stars
          (PopularBusinesses.renderCard Sample.joes_cafe)) = 4
  /\ unfilled_count
       (PopularBusinesses.stars
          (PopularBusinesses.renderCard Sample.joes_cafe)) = 1
  /\ filled_count
       (BusinessCard.renderStars (Business.rating Sample.joes_cafe)) = 3
  /\ unfilled_count
       (BusinessCard.renderStars (Business.rating Sample.joes_cafe)) = 2.
Proof. repeat split. Qed.

(* ===================================================================== *)
(** ** The theorems at the sample worlds *)
(* ===================================================================== *)

Lemma submit_without_identity_is_blocked_sample :
  ListBusiness.user Sample.anonymous = None
  /\ ListBusiness.handleSubmit Sample.accepting Sample.anonymous
     = (Sample.anonymous,
        [PreventDefault; Toast ListBusiness.auth_required_toast;
         Navigate "/auth/signin"],
        Returned tt)
  /\ backend_calls
       (log_of (ListBusiness.handleSubmit Sample.accepting Sample.anonymous))
     = [].
Proof.
  split; [reflexivity|].
  apply (submit_without_identity_is_blocked Sample.accepting Sample.anonymous).
  reflexivity.
Defined.

Lemma submit_upload_calls_sample :
  ListBusiness.user Sample.draft = Some Sample.alice
  /\ ListBusiness.logoFile Sample.draft = Some Sample.logo_png
  /\ length
       (upload_calls
          (log_of (ListBusiness.handleSubmit Sample.accepting Sample.draft)))
     = 3.
Proof.
  split; [reflexivity|]. split; [reflexivity|].
  destruct (submit_upload_calls Sample.accepting Sample.draft Sample.alice
              eq_refl) as [Hlogo _].
  destruct (Hlogo Sample.logo_png eq_refl) as [_ Hcount].
  exact Hcount.
Defined.

Lemma insert_owner_is_submitter_sample :
  ListBusiness.user Sample.draft = Some Sample.alice
  /\ In (DbInsert "businesses" Sample.draft_row)
        (log_of (ListBusiness.handleSubmit Sample.accepting Sample.draft))
  /\ Row.owner_id Sample.draft_row = "7f3c".
Proof.
  assert (Hin : In (DbInsert "businesses" Sample.draft_row)
                  (log_of (ListBusiness.handleSubmit Sample.accepting
                             Sample.draft))).
  { vm_compute. do 4 right. left. reflexivity. }
  split; [reflexivity|]. split; [exact Hin|].
  exact (insert_owner_is_submitter Sample.accepting Sample.draft Sample.alice
           "businesses" Sample.draft_row eq_refl Hin).
Defined.

Lemma upload_paths_and_options_sample :
  ListBusiness.user Sample.draft = Some Sample.alice
  /\ In Sample.logo_call
        (log_of (ListBusiness.handleSubmit Sample.refusing Sample.draft))
  /\ insert_calls
       (log_of (ListBusiness.handleSubmit Sample.refusing Sample.draft)) = [].
Proof.
  assert (Hin : In Sample.logo_call
                  (log_of (ListBusiness.handleSubmit Sample.refusing
                             Sample.draft))).
  { vm_compute. right. left. reflexivity. }
  split; [reflexivity|]. split; [exact Hin|].
  destruct (upload_paths_and_options Sample.refusing Sample.draft Sample.alice
              "business-assets" "logos/7f3c/1700000000000_logo.png"
              Sample.logo_png ListBusiness.upload_options eq_refl Hin)
    as (_ & _ & _ & Hrefused).
  destruct (Hrefused Sample.already_exists eq_refl) as [Hnone _].
  exact Hnone.
Defined.

Lemma failed_submission_sample :
  ListBusiness.user Sample.draft = Some Sample.alice
  /\ In Sample.logo_call
        (log_of (ListBusiness.handleSubmit Sample.refusing Sample.draft))
  /\ reply_error Sample.refusing Sample.logo_call = Some Sample.already_exists
  /\ exists e,
      In (Toast (ListBusiness.error_toast e))
         (log_of (ListBusiness.handleSubmit Sample.refusing Sample.draft))
      /\ ListBusiness.formData
           (state_of (ListBusiness.handleSubmit Sample.refusing Sample.draft))
         = ListBusiness.formData Sample.draft.
Proof.
  assert (Hin : In Sample.logo_call
                  (log_of (ListBusiness.handleSubmit Sample.refusing
                             Sample.draft))).
  { vm_compute. right. left. reflexivity. }
  split; [reflexivity|]. split; [exact Hin|]. split; [reflexivity|].
  destruct (failed_submission_reports_and_keeps_draft Sample.refusing
              Sample.draft Sample.alice Sample.logo_call Sample.already_exists
              eq_refl Hin eq_refl)
    as (e & failing & _ & _ & Hlog & _ & Hform & _).
  exists e. split; [|exact Hform].
  rewrite Hlog. right. apply in_or_app. right. right. left. reflexivity.
Defined.

Lemma product_images_capped_sample :
  In (DbInsert "businesses" Sample.four_row)
     (snd (ListBusiness.run Sample.accepting Sample.four_then_submit
             Sample.blank))
  /\ Row.product_images Sample.four_row
     = Some
         ["https://cdn.example/business-assets/products/7f3c/1700000000000_0_front.jpg";
          "https://cdn.example/business-assets/products/7f3c/1700000000001_1_menu.jpg";
          "https://cdn.example/business-assets/products/7f3c/1700000000002_2_logo.png"]
  /\ length
       ["https://cdn.example/business-assets/products/7f3c/1700000000000_0_front.jpg";
        "https://cdn.example/business-assets/products/7f3c/1700000000001_1_menu.jpg";
        "https://cdn.example/business-assets/products/7f3c/1700000000002_2_logo.png"]
     <= 3.
Proof.
  assert (Hin : In (DbInsert "businesses" Sample.four_row)
                  (snd (ListBusiness.run Sample.accepting
                          Sample.four_then_submit Sample.blank))).
  { vm_compute. do 4 right. left. reflexivity. }
  split; [exact Hin|]. split; [reflexivity|].
  exact (proj2 (proj2 (product_images_capped_at_three Sample.accepting))
           (Some Sample.alice) Sample.four_then_submit "businesses"
           Sample.four_row _ Hin eq_refl).
Defined.

Lemma fetch_error_keeps_list_sample :
  reply_error Sample.refusing (Rpc "get_public_businesses")
  = Some Sample.silent_error
  /\ PopularBusinesses.render
       (state_of
          (PopularBusinesses.fetchBusinesses Sample.refusing
             PopularBusinesses.initialState))
     = PopularBusinesses.GalleryView [].
Proof.
  split; [reflexivity|].
  destruct (fetch_error_keeps_list Sample.refusing
              PopularBusinesses.initialState Sample.silent_error eq_refl)
    as (label & _ & _ & _ & _ & Hempty).
  exact (Hempty eq_refl).
Defined.

Lemma business_options_is_checked_set_sample :
  In (DbInsert "businesses" Sample.digital_row)
     (log_of
        (ListBusiness.handleSubmit Sample.accepting
           (fst (ListBusiness.run Sample.accepting Sample.tick_two_untick_one
                   Sample.blank))))
  /\ checked_set Sample.tick_one ∅
     = checked_set Sample.tick_two_untick_one ∅
  /\ Row.business_options Sample.digital_row = Some ["Digital Payments"]
  /\ list_to_set
       (ListBusiness.options
          (ListBusiness.formData
             (fst (ListBusiness.run Sample.accepting Sample.tick_one
                     Sample.blank))))
     =@{gset string} {["Digital Payments"]}.
Proof.
  assert (Hin : In (DbInsert "businesses" Sample.digital_row)
                  (log_of
                     (ListBusiness.handleSubmit Sample.accepting
                        (fst (ListBusiness.run Sample.accepting
                                Sample.tick_two_untick_one Sample.blank))))).
  { vm_compute. right. left. reflexivity. }
  assert (Hsame : checked_set Sample.tick_one ∅
                  = checked_set Sample.tick_two_untick_one ∅).
  { vm_compute. reflexivity. }
  destruct (business_options_is_checked_set Sample.accepting
              (Some Sample.alice) Sample.tick_two_untick_one)
    as (Hrow & Hset & _ & Horder).
  split; [exact Hin|]. split; [exact Hsame|]. split.
  - etransitivity; [exact (Hrow "businesses" Sample.digital_row Hin)|].
    vm_compute. reflexivity.
  - etransitivity; [exact (Horder Sample.tick_one Hsame)|].
    vm_compute. reflexivity.
Defined.

(* ===================================================================== *)
(** ** The change handlers of the form *)
(* ===================================================================== *)

Section ChangeHandlers.
Import ListBusiness.
Variable env : Backend.

(** X1. [handleInputChange] writes the given value into the given field and
    leaves every other field, the option list, the selected files, the
    identity and the loading flag as they were. *)
Theorem input_change_sets_only_that_field (s : State) (field : Field)
    (value : string) :
  get_field field (formData (handleInputChange field value s)) = value
  /\ (forall other,
        other <> field ->
        get_field other (formData (handleInputChange field value s))
        = get_field other (formData s))
  /\ options (formData (handleInputChange field value s))
     = options (formData s)
  /\ logoFile (handleInputChange field value s) = logoFile s
  /\ productImages (handleInputChange field value s) = productImages s
  /\ user (handleInputChange field value s) = user s
  /\ loading (handleInputChange field value s) = loading s.
Proof.
  split; [now destruct field|].
  split; [|repeat split].
  intros other Hne.
  destruct field, other; try reflexivity; now destruct Hne.
Qed.

Lemma run_tracks_last_typed evs field :
  forall s,
    get_field field (formData (fst (run env evs s)))
    = last_typed evs field (get_field field (formData s)).
Proof.
  induction evs as [|ev rest IH]; intros s; [reflexivity|].
  cbn [run].
  destruct (step env ev s) as [s1 log1] eqn:Hstep.
  specialize (IH s1). destruct (run env rest s1) as [s2 log2].
  cbn [fst] in *. rewrite IH. clear IH.
  destruct ev; cbn [step] in Hstep.
  1-4, 6: injection Hstep as <- _; cbn [last_typed].
  - f_equal. case_decide as Hf.
    + subst. now destruct field.
    + destruct field0, field; try reflexivity; now destruct Hf.
  - reflexivity.
  - unfold handleLogoChange. now destruct files as [[|f fs]|].
  - unfold handleProductImagesChange. now destruct files as [fs|].
  - reflexivity.
  - pose proof (handleSubmit_keeps_draft env s) as (_ & _ & _ & Hkeep).
    unfold state_of in Hkeep.
    destruct (handleSubmit env s) as [[s' log'] r].
    injection Hstep as <- _. cbn in Hkeep. cbn [last_typed].
    now rewrite Hkeep.
Qed.

(** X2. After any history of events on the mounted form, every text field of
    the draft holds the value most recently typed into it, and the empty
    string if nothing was: option clicks, file selections, submits and
    identity changes in between do not touch it. *)
Theorem draft_holds_last_typed_values (u : option User) (evs : list Event)
    (field : Field) :
  get_field field (formData (fst (run env evs (initialState u))))
  = last_typed evs field "".
Proof.
  rewrite run_tracks_last_typed. f_equal. now destruct field.
Qed.

(** X3. After [handleOptionChange option checked], the checkbox of [option]
    shows [checked], and every other checkbox shows what it showed. *)
Theorem option_change_sets_checkbox (s : State) (option : string)
    (checked : bool) :
  option_checked (handleOptionChange option checked s) option = checked
  /\ (forall other,
        other <> option ->
        option_checked (handleOptionChange option checked s) other
        = option_checked s other).
Proof.
  unfold option_checked, handleOptionChange. cbn.
  generalize (options (formData s)) as l. intros l.
  destruct checked.
  - split.
    + rewrite existsb_app. cbn. rewrite String.eqb_refl.
      now rewrite orb_true_r.
    + intros other Hne. rewrite existsb_app. cbn.
      apply String.eqb_neq in Hne. rewrite Hne. now rewrite !orb_false_r.
  - split.
    + induction l as [|x l IH]; [reflexivity|]. cbn.
      destruct (String.eqb_spec x option) as [->|Hx]; cbn; [exact IH|].
      rewrite IH. apply String.eqb_neq in Hx.
      rewrite String.eqb_sym. now rewrite Hx.
    + intros other Hne.
      induction l as [|x l IH]; [reflexivity|]. cbn.
      destruct (String.eqb_spec x option) as [->|Hx]; cbn.
      * rewrite IH. apply String.eqb_neq in Hne. now rewrite Hne.
      * now rewrite IH.
Qed.

(** X4. [handleOptionChange option true] always appends: the label occurs once
    more than before, also when it was already in the list.
    [handleOptionChange option false] removes every occurrence. Neither
    changes how often any other label occurs. *)
Theorem option_change_occurrences (s : State) (option : string) :
  count_occ string_dec
    (options (formData (handleOptionChange option true s))) option
  = S (count_occ string_dec (options (formData s)) option)
  /\ count_occ string_dec
       (options (formData (handleOptionChange option false s))) option
     = 0
  /\ (forall checked other,
        other <> option ->
        count_occ string_dec
          (options (formData (handleOptionChange option checked s))) other
        = count_occ string_dec (options (formData s)) other).
Proof.
  unfold handleOptionChange. cbn.
  generalize (options (formData s)) as l. intros l.
  split; [|split].
  - rewrite count_occ_app. cbn.
    destruct (string_dec option option); [lia | congruence].
  - induction l as [|x l IH]; [reflexivity|]. cbn.
    destruct (String.eqb_spec x option) as [->|Hx]; cbn; [exact IH|].
    destruct (string_dec x option); [congruence | exact IH].
  - intros checked other Hne. destruct checked.
    + rewrite count_occ_app. cbn.
      destruct (string_dec option other); [congruence | lia].
    + induction l as [|x l IH]; [reflexivity|]. cbn.
      destruct (String.eqb_spec x option) as [->|Hx]; cbn.
      * destruct (string_dec option other); [congruence | exact IH].
      * destruct (string_dec x other); now rewrite IH.
Qed.

(** X5. The option list stays free of duplicates when a label is unticked, and
    when a label is ticked whose checkbox showed as unchecked. *)
Theorem option_list_stays_duplicate_free (s : State) (option : string) :
  List.NoDup (options (formData s)) ->
  List.NoDup (options (formData (handleOptionChange option false s)))
  /\ (option_checked s option = false ->
      List.NoDup (options (formData (handleOptionChange option true s)))).
Proof.
  unfold handleOptionChange, option_checked. cbn.
  generalize (options (formData s)) as l. intros l Hnd. split.
  - now apply List.NoDup_filter.
  - intros Hun. apply List.NoDup_app; [exact Hnd | |].
    + repeat constructor. intros [].
    + intros x Hx [<-|[]].
      assert (Hex : existsb (String.eqb option) l = true).
      { apply existsb_exists. exists option. split; [exact Hx|].
        apply String.eqb_refl. }
      congruence.
Qed.
End ChangeHandlers.

(* ===================================================================== *)
(** ** File selections and the loading flag over histories *)
(* ===================================================================== *)

Section Histories.
Import ListBusiness.
Variable env : Backend.

Lemma step_submit_state s :
  fst (step env Submit s) = state_of (handleSubmit env s).
Proof.
  cbn [step]. unfold state_of. now destruct (handleSubmit env s) as [[s' l] r].
Qed.

Lemma run_cons ev rest s :
  fst (run env (ev :: rest) s) = fst (run env rest (fst (step env ev s))).
Proof.
  cbn [run]. destruct (step env ev s) as [s1 log1]. cbn [fst].
  now destruct (run env rest s1).
Qed.

Lemma run_app_state evs1 evs2 :
  forall s,
    fst (run env (evs1 ++ evs2) s) = fst (run env evs2 (fst (run env evs1 s))).
Proof.
  induction evs1 as [|ev rest IH]; intros s; [reflexivity|].
  rewrite <- app_comm_cons, !run_cons. apply IH.
Qed.

Lemma run_tracks_last_logo evs :
  forall s, logoFile (fst (run env evs s)) = last_logo evs (logoFile s).
Proof.
  induction evs as [|ev rest IH]; intros s; [reflexivity|].
  rewrite run_cons, IH. clear IH.
  destruct ev; try reflexivity.
  - now destruct files as [[|f fs]|].
  - now destruct files as [fs|].
  - rewrite step_submit_state. cbn [last_logo].
    now destruct (handleSubmit_keeps_draft env s) as (_ & -> & _).
Qed.

Lemma last_logo_keeps_some evs :
  forall current, is_Some current -> is_Some (last_logo evs current).
Proof.
  induction evs as [|ev rest IH]; intros current Hc; [exact Hc|].
  destruct ev; cbn [last_logo]; try now apply IH.
  destruct files as [[|f fs]|]; apply IH; [exact Hc | eauto | exact Hc].
Qed.

(** X6. The selected logo is the first file of the most recent non-empty
    selection on the logo input; a selection event without files keeps the
    previous logo, so a logo, once selected, is never unselected. *)
Theorem logo_selection_is_never_cleared (s : State) (evs : list Event) :
  logoFile (fst (run env evs s)) = last_logo evs (logoFile s)
  /\ (is_Some (logoFile s) -> is_Some (logoFile (fst (run env evs s)))).
Proof.
  split; [apply run_tracks_last_logo|].
  intros Hs. rewrite run_tracks_last_logo. now apply last_logo_keeps_some.
Qed.

Lemma run_tracks_last_images evs :
  forall s,
    productImages (fst (run env evs s)) = last_images evs (productImages s).
Proof.
  induction evs as [|ev rest IH]; intros s; [reflexivity|].
  rewrite run_cons, IH. clear IH.
  destruct ev; try reflexivity.
  - now destruct files as [[|f fs]|].
  - now destruct files as [fs|].
  - rewrite step_submit_state. cbn [last_images].
    now destruct (handleSubmit_keeps_draft env s) as (_ & _ & -> & _).
Qed.

(** X7. The selected product images are the first three files of the most
    recent selection on the product-images input: a new selection
    replaces the previous one instead of adding to it, and a selection of
    no files empties it. *)
Theorem product_images_hold_last_selection (s : State) (evs : list Event) :
  productImages (fst (run env evs s)) = last_images evs (productImages s)
  /\ (forall files,
        productImages
          (fst (run env (evs ++ [ProductImagesChange (Some files)]) s))
        = firstn 3 files)
  /\ productImages (fst (run env (evs ++ [ProductImagesChange (Some [])]) s))
     = [].
Proof.
  split; [apply run_tracks_last_images|].
  split; [intros files|]; now rewrite run_app_state.
Qed.



End Histories.

(* ===================================================================== *)
(** ** The outcome of a submission *)
(* ===================================================================== *)

Section Outcome.
Import ListBusiness.
Variable env : Backend.

Lemma upload_calls_of_authenticated s u tail :
  upload_calls tail = [] ->
  upload_calls (PreventDefault :: logo_calls env u s ++ image_calls env u s
                  ++ tail)
  = logo_calls env u s ++ image_calls env u s.
Proof.
  intros Ht. unfold upload_calls in *. cbn [List.filter is_upload].
  rewrite !List.filter_app, Ht, app_nil_r.
  destruct (logo_calls_are_uploads env u s) as (H1 & _).
  destruct (image_calls_are_uploads env u s) as (H2 & _).
  unfold upload_calls in H1, H2. now rewrite H1, H2.
Qed.

(** The three ways a submit by an authenticated user can end. *)
Lemma authenticated_log_cases s u :
  user s = Some u ->
  (exists e,
      log_of (handleSubmit env s)
      = PreventDefault :: upload_calls (log_of (handleSubmit env s))
          ++ catch_log e
      /\ insert_calls (log_of (handleSubmit env s)) = [])
  \/ (exists row e,
         log_of (handleSubmit env s)
         = PreventDefault :: upload_calls (log_of (handleSubmit env s))
             ++ DbInsert "businesses" row :: catch_log e
         /\ db_insert env "businesses" row = Some e)
  \/ (exists row,
         log_of (handleSubmit env s)
         = PreventDefault :: upload_calls (log_of (handleSubmit env s))
             ++ [DbInsert "businesses" row; Toast success_toast;
                 Navigate "/dashboard"]
         /\ db_insert env "businesses" row = None).
Proof.
  intros Hu.
  destruct (handleSubmit_authenticated env s u Hu) as (n & _ & _ & Hlog).
  rewrite Hlog. clear Hlog.
  destruct (logo_calls_are_uploads env u s) as (HLu & HLi & _).
  destruct (image_calls_are_uploads env u s) as (HIu & HIi & _).
  destruct (logo_result env u s) as [logoUrl|e1].
  - destruct (images_result env u s) as [imageUrls|e2].
    + cbn zeta.
      destruct (db_insert env "businesses" _) as [e3|] eqn:Hdb.
      * right. left. eexists _, e3.
        rewrite upload_calls_of_authenticated by reflexivity.
        split; [now rewrite <- app_assoc | exact Hdb].
      * right. right. eexists.
        rewrite upload_calls_of_authenticated by reflexivity.
        split; [now rewrite <- app_assoc | exact Hdb].
    + left. exists e2.
      rewrite upload_calls_of_authenticated by reflexivity.
      split; [now rewrite <- app_assoc|].
      unfold insert_calls in *. cbn [List.filter is_insert].
      now rewrite !List.filter_app, HLi, HIi.
  - left. exists e1. split.
    + unfold upload_calls in *. cbn [List.filter is_upload].
      now rewrite List.filter_app, HLu, app_nil_r.
    + unfold insert_calls in *. cbn [List.filter is_insert].
      now rewrite List.filter_app, HLi.
Qed.

Lemma not_upload_not_in_upload_calls ev log :
  is_upload ev = false -> ~ In ev (upload_calls log).
Proof.
  intros Hev Hin. apply List.filter_In in Hin. destruct Hin. congruence.
Qed.

(** X9. The handler navigates to the dashboard exactly when the backend
    accepted the insert it issued; in that case the success toast is shown
    and nothing is logged as an error. *)
Theorem dashboard_iff_insert_accepted (s : State) :
  (In (Navigate "/dashboard") (log_of (handleSubmit env s))
   <-> exists row,
         In (DbInsert "businesses" row) (log_of (handleSubmit env s))
         /\ db_insert env "businesses" row = None)
  /\ (In (Navigate "/dashboard") (log_of (handleSubmit env s)) ->
      In (Toast success_toast) (log_of (handleSubmit env s))
      /\ forall label e,
          ~ In (ConsoleError label e) (log_of (handleSubmit env s))).
Proof.
  destruct (user s) as [u|] eqn:Hu.
  2: { rewrite (handleSubmit_anonymous_log env s Hu). split; [split|].
       - cbn. intuition discriminate.
       - intros (row & Hin & _). cbn in Hin. intuition discriminate.
       - cbn. intuition discriminate. }
  destruct (authenticated_log_cases s u Hu)
    as [(e & Hlog & Hins)|[(row & e & Hlog & Hdb)|(row & Hlog & Hdb)]].
  - assert (Hno : ~ In (Navigate "/dashboard") (log_of (handleSubmit env s))).
    { rewrite Hlog. intros [H|H]; [discriminate|].
      apply in_app_or in H. destruct H as [H|H].
      - now apply not_upload_not_in_upload_calls in H.
      - cbn in H. intuition discriminate. }
    split; [split|]; [tauto| |tauto].
    intros (row & Hin & _).
    assert (H : In (DbInsert "businesses" row)
                  (insert_calls (log_of (handleSubmit env s))))
      by (apply List.filter_In; now split).
    now rewrite Hins in H.
  - assert (Hno : ~ In (Navigate "/dashboard") (log_of (handleSubmit env s))).
    { rewrite Hlog. intros [H|H]; [discriminate|].
      apply in_app_or in H. destruct H as [H|H].
      - now apply not_upload_not_in_upload_calls in H.
      - cbn in H. intuition discriminate. }
    split; [split|]; [tauto| |tauto].
    intros (row' & Hin & Hacc). rewrite Hlog in Hin.
    destruct Hin as [Hin|Hin]; [discriminate|].
    apply in_app_or in Hin. destruct Hin as [Hin|Hin].
    + now apply not_upload_not_in_upload_calls in Hin.
    + cbn in Hin. destruct Hin as [[= <-]|Hin]; [congruence|].
      intuition discriminate.
  - assert (Hyes : In (Navigate "/dashboard") (log_of (handleSubmit env s))).
    { rewrite Hlog. right. apply in_or_app. right. cbn. tauto. }
    split; [split|].
    + intros _. exists row. split; [|exact Hdb].
      rewrite Hlog. right. apply in_or_app. right. now left.
    + intros _. exact Hyes.
    + intros _. split.
      * rewrite Hlog. right. apply in_or_app. right. cbn. tauto.
      * intros label e. rewrite Hlog. intros [H|H]; [discriminate|].
        apply in_app_or in H. destruct H as [H|H].
        -- now apply not_upload_not_in_upload_calls in H.
        -- cbn in H. intuition discriminate.
Qed.

Lemma fulfilled_product_urls u files :
  forall index k,
    first_rejection (product_promises env u files index k) = None ->
    fulfilled_values (product_promises env u files index k)
    = omap (stored_url env) (product_calls env u files index k).
Proof.
  induction files as [|f rest IH]; intros index k; [reflexivity|].
  cbn [product_promises product_calls first_rejection fulfilled_values
       omap list_omap stored_url].
  unfold upload_promise; cbn [settled settled_at].
  destruct (upload_result _) as [e|data].
  - destruct (first_rejection _) as [[t e']|]; [|discriminate].
    destruct (t <? _)%nat; discriminate.
  - intros H. now rewrite IH.
Qed.

(** X10. The row of an insert carries the public URLs that the storage client
    derives from the paths the storage reported for the accepted uploads:
    the logo's URL in [image_url] ([null] without a logo), the product
    images' URLs in [product_images], one per selected image and in the
    order of the selection. The required text fields are passed as typed. *)
Theorem inserted_row_carries_stored_urls (s : State) (u : User)
    (table : string) (row : Row.t) :
  user s = Some u ->
  In (DbInsert table row) (log_of (handleSubmit env s)) ->
  Row.image_url row
  = match omap (stored_url env) (logo_calls env u s) with
    | url :: _ => or_null url
    | [] => None
    end
  /\ Row.product_images row
     = nonempty_or_null (omap (stored_url env) (image_calls env u s))
  /\ length (omap (stored_url env) (image_calls env u s))
     = length (productImages s)
  /\ Row.name row = name (formData s)
  /\ Row.description row = description (formData s)
  /\ Row.category row = category (formData s)
  /\ Row.phone row = phone (formData s)
  /\ Row.address row = address (formData s)
  /\ Row.city row = city (formData s)
  /\ Row.state row = state (formData s)
  /\ Row.zip_code row = zipCode (formData s).
Proof.
  intros Hu Hin.
  destruct (insert_call_inv env s u table row Hu Hin)
    as (_ & logoUrl & imageUrls & Hlr & Hir & ->).
  assert (Hurls : imageUrls = omap (stored_url env) (image_calls env u s)).
  { unfold images_result, image_calls, Promise_all in *.
    destruct (first_rejection _) as [[t e]|] eqn:Hrej; [discriminate|].
    cbn [settled] in Hir. injection Hir as <-.
    now apply fulfilled_product_urls. }
  split; [|split; [|split; [|repeat split]]].
  - cbn [Row.image_url insert_row].
    unfold logo_result, logo_calls, upload_promise in *.
    destruct (logoFile s) as [file|].
    + cbn [settled omap list_omap stored_url] in *.
      destruct (upload_result _); [discriminate|]. now injection Hlr as <-.
    + now injection Hlr as <-.
  - cbn [Row.product_images insert_row]. now rewrite Hurls.
  - rewrite <- Hurls. now destruct (images_accepted env u s _ Hir).
Qed.

(** X11. When the logo is absent or its upload accepted, every product image
    is uploaded exactly once, in the order of the selection, whether or
    not the storage refuses some of them: a refused product upload does
    not stop the uploads of the others. The insert is left out exactly
    when one of the product uploads is refused. *)
Theorem product_uploads_fan_out (s : State) (u : User) :
  user s = Some u ->
  (forall call, In call (logo_calls env u s) -> reply_error env call = None) ->
  upload_calls (log_of (handleSubmit env s))
  = logo_calls env u s ++ image_calls env u s
  /\ uploaded_files (log_of (handleSubmit env s)) = selected_files s
  /\ length (upload_calls (log_of (handleSubmit env s)))
     = length (selected_files s)
  /\ (insert_calls (log_of (handleSubmit env s)) = []
      <-> exists call,
            In call (image_calls env u s)
            /\ is_Some (reply_error env call)).
Proof.
  intros Hu Hlogo.
  destruct (handleSubmit_authenticated env s u Hu) as (n & _ & _ & Hlog).
  rewrite Hlog. clear Hlog.
  destruct (logo_calls_are_uploads env u s) as (HLu & HLi & _ & HLf).
  destruct (image_calls_are_uploads env u s) as (HIu & HIi & _ & HIf).
  destruct (logo_result env u s) as [logoUrl|e1] eqn:Hlr.
  2: { destruct (logo_refused env u s e1 Hlr) as (call & Hcalls & Herr).
       rewrite (Hlogo call) in Herr; [discriminate|].
       rewrite Hcalls. now left. }
  assert (Hfiles : omap uploaded_file
                     (logo_calls env u s ++ image_calls env u s)
                   = selected_files s).
  { unfold uploaded_files, selected_files in *.
    now rewrite omap_app, HLf, HIf. }
  assert (Hup : forall tail,
             upload_calls tail = [] ->
             upload_calls (PreventDefault :: logo_calls env u s
                             ++ image_calls env u s ++ tail)
             = logo_calls env u s ++ image_calls env u s)
    by (intros; now apply upload_calls_of_authenticated).
  assert (Hfl : forall tail,
             uploaded_files tail = [] ->
             uploaded_files (PreventDefault :: logo_calls env u s
                               ++ image_calls env u s ++ tail)
             = selected_files s).
  { intros tail Ht. unfold uploaded_files in *.
    cbn [omap list_omap uploaded_file].
    now rewrite app_assoc, omap_app, Hfiles, Ht, app_nil_r. }
  assert (Hlen : length (logo_calls env u s ++ image_calls env u s)
                 = length (selected_files s)).
  { unfold selected_files, image_calls, logo_calls.
    rewrite !length_app, product_calls_length.
    now destruct (logoFile s). }
  destruct (images_result env u s) as [imageUrls|e2] eqn:Hir.
  - cbn zeta.
    assert (Hins : insert_calls
                     (PreventDefault :: logo_calls env u s
                        ++ image_calls env u s
                        ++ DbInsert "businesses"
                             (insert_row u (formData s) logoUrl imageUrls)
                           :: match db_insert env "businesses"
                                      (insert_row u (formData s) logoUrl
                                         imageUrls) with
                              | Some e => catch_log e
                              | None => [Toast success_toast;
                                         Navigate "/dashboard"]
                              end) <> []).
    { unfold insert_calls in *. cbn [List.filter is_insert].
      rewrite !List.filter_app, HLi, HIi. cbn. discriminate. }
    destruct (db_insert env "businesses" _);
      (split; [apply Hup; reflexivity|];
       split; [apply Hfl; reflexivity|];
       split; [rewrite Hup by reflexivity; exact Hlen|];
       split; [intros H; now destruct Hins|];
       intros (call & Hc & Herr);
       destruct (images_accepted env u s _ Hir) as (_ & Hok);
       rewrite (Hok call Hc) in Herr; now destruct Herr).
  - split; [apply Hup; reflexivity|].
    split; [apply Hfl; reflexivity|].
    split; [rewrite Hup by reflexivity; exact Hlen|].
    split.
    + intros _. destruct (images_refused env u s e2 Hir) as (call & Hc & He).
      exists call. split; [exact Hc|]. rewrite He. eauto.
    + intros _. unfold insert_calls in *. cbn [List.filter is_insert].
      now rewrite !List.filter_app, HLi, HIi.
Qed.
End Outcome.

(* ===================================================================== *)
(** ** The rendered form *)
(* ===================================================================== *)

Section RenderedForm.
Import ListBusiness ListBusinessView.
Variable env : Backend.

(** X13. The form is rendered only once the identity is resolved and present,
    and a submit from a state in which it is rendered is never blocked:
    the handler shows no sign-in toast and navigates nowhere but to the
    dashboard. *)
Theorem form_is_shown_only_to_identified_user (authLoading : bool)
    (s : State) (form : Form) :
  render authLoading s = FormView form ->
  authLoading = false
  /\ (exists u, user s = Some u)
  /\ ~ In (Toast auth_required_toast) (log_of (handleSubmit env s))
  /\ (forall to,
        In (Navigate to) (log_of (handleSubmit env s)) -> to = "/dashboard").
Proof.
  unfold render. destruct authLoading; [discriminate|].
  destruct (user s) as [u|] eqn:Hu; [|discriminate]. intros _.
  split; [reflexivity|]. split; [eauto|].
  destruct (authenticated_log_cases env s u Hu)
    as [(e & Hlog & _)|[(row & e & Hlog & _)|(row & Hlog & _)]];
    rewrite Hlog; (split; [|intros to]); intros [H|H]; try discriminate;
    apply in_app_or in H; destruct H as [H|H];
    try (now apply not_upload_not_in_upload_calls in H);
    cbn in H; repeat (destruct H as [H|H]; try discriminate);
    try (now destruct H); now injection H as <-.
Qed.


End RenderedForm.

(* ===================================================================== *)
(** ** The gallery: every fetch outcome, and the star rows *)
(* ===================================================================== *)

Section GalleryFetch.
Import PopularBusinesses.
Variable env : Backend.

(** X15. Whatever the backend answers, [fetchBusinesses] issues the one remote
    query, returns without throwing and clears the loading flag, so the
    component leaves the loading view. *)
Theorem fetch_always_settles (s : State) :
  backend_calls (log_of (fetchBusinesses env s))
  = [Rpc "get_public_businesses"]
  /\ result_of (fetchBusinesses env s) = Returned tt
  /\ loading (state_of (fetchBusinesses env s)) = false
  /\ render (state_of (fetchBusinesses env s)) <> LoadingView.
Proof.
  unfold fetchBusinesses.
  cbv [bind emit modify try_finally try_catch ret throw state_of log_of
       result_of].
  destruct (rpc env "get_public_businesses") as [[rows|] [err|]|e];
    cbn; repeat split; discriminate.
Qed.

(** X16. When the remote query resolves without an error, the rows it returned
    replace the list, in the order returned, and the gallery shows one
    card per row keyed by the row's id; when it resolves with neither rows
    nor an error, the list is kept. *)
Theorem fetch_success_replaces_list (s : State) :
  reply_error env (Rpc "get_public_businesses") = None ->
  (forall rows,
      rpc env "get_public_businesses" = RpcResolved (Some rows) None ->
      businesses (state_of (fetchBusinesses env s)) = rows
      /\ exists cards,
          render (state_of (fetchBusinesses env s)) = GalleryView cards
          /\ List.map card_key cards = List.map Business.id rows)
  /\ (rpc env "get_public_businesses" = RpcResolved None None ->
      businesses (state_of (fetchBusinesses env s)) = businesses s)
  /\ forall label e,
       ~ In (ConsoleError label e) (log_of (fetchBusinesses env s)).
Proof.
  intros Hok. cbn in Hok.
  unfold fetchBusinesses.
  cbv [bind emit modify try_finally try_catch ret throw state_of log_of].
  destruct (rpc env "get_public_businesses") as [data error|e];
    [subst error|discriminate].
  destruct data as [rows|]; cbn.
  - split; [|split; [discriminate|intuition discriminate]].
    intros ? [= <-]. split; [reflexivity|].
    eexists. split; [reflexivity|].
    rewrite List.map_map. reflexivity.
  - split; [discriminate|]. split; [reflexivity|intuition discriminate].
Qed.

(** X17. The gallery card treats an empty string like a missing value: the
    logo falls back to the placeholder (so its source is never empty),
    the description paragraph is left out, and the website button opens
    nothing. The main image is the first product image when there is one
    and the placeholder otherwise, whatever the logo is. *)
Theorem gallery_card_treats_empty_as_missing (business : Business.t) :
  logo (renderCard business) <> ""
  /\ (Business.image_url business = None
      \/ Business.image_url business = Some "" ->
      logo (renderCard business) = logo_placeholder)
  /\ (Business.description business = None
      \/ Business.description business = Some "" ->
      blurb (renderCard business) = None)
  /\ (Business.website business = None
      \/ Business.website business = Some "" ->
      visit_website (renderCard business) = None)
  /\ blurb (renderCard business) <> Some ""
  /\ visit_website (renderCard business) <> Some ""
  /\ (Business.product_images business = None
      \/ Business.product_images business = Some [] ->
      primary_image (renderCard business) = product_placeholder)
  /\ (forall first rest,
        Business.product_images business = Some (first :: rest) ->
        primary_image (renderCard business) = first).
Proof.
  unfold renderCard, truthy_string, or_null, or_else.
  cbn [logo blurb visit_website primary_image].
  split.
  { destruct (Business.image_url business) as [url|]; [|discriminate].
    destruct (String.eqb_spec url ""); [discriminate | assumption]. }
  split; [intros [->| ->]; reflexivity|].
  split; [intros [->| ->]; reflexivity|].
  split; [intros [->| ->]; reflexivity|].
  split.
  { destruct (Business.description business) as [d|]; [|discriminate].
    destruct (String.eqb_spec d ""); congruence. }
  split.
  { destruct (Business.website business) as [w|]; [|discriminate].
    destruct (String.eqb_spec w ""); congruence. }
  split; [intros [->| ->]; reflexivity|].
  now intros first rest ->.
Qed.
End GalleryFetch.

Lemma star_flags_of_count (c : Z) :
  List.map (fun i => (Z.of_nat i <? c)%Z) (seq 0 5)
  = repeat true (clamp_stars c) ++ repeat false (5 - clamp_stars c).
Proof.
  assert (Hc : (c <= 0 \/ c = 1 \/ c = 2 \/ c = 3 \/ c = 4 \/ 5 <= c)%Z)
    by lia.
  destruct Hc as [Hc|[->|[->|[->|[->|Hc]]]]]; try reflexivity.
  - replace (clamp_stars c) with 0 by (unfold clamp_stars; lia).
    cbn [seq List.map Z.of_nat Pos.of_succ_nat Pos.succ].
    repeat match goal with
           | |- context [(?a <? c)%Z] => destruct (Z.ltb_spec a c); try lia
           end.
    reflexivity.
  - replace (clamp_stars c) with 5 by (unfold clamp_stars; lia).
    cbn [seq List.map Z.of_nat Pos.of_succ_nat Pos.succ].
    repeat match goal with
           | |- context [(?a <? c)%Z] => destruct (Z.ltb_spec a c); try lia
           end.
    reflexivity.
Qed.

Lemma filled_count_of_flags (row : list Star) (k : nat) :
  k <= 5 ->
  List.map star_filled row = repeat true k ++ repeat false (5 - k) ->
  filled_count row = k /\ unfilled_count row = 5 - k.
Proof.
  intros Hk Hrow. unfold filled_count, unfilled_count.
  assert (H : forall (l : list Star) (f : list bool),
             List.map star_filled l = f ->
             length (List.filter star_filled l)
             = length (List.filter (fun b => b) f)
             /\ length (List.filter (fun st => negb (star_filled st)) l)
                = length (List.filter negb f)).
  { induction l as [|x l IH]; intros f <-; [split; reflexivity|].
    cbn. destruct (IH _ eq_refl) as [H1 H2].
    destruct (star_filled x); cbn; lia. }
  destruct (H _ _ Hrow) as [-> ->].
  assert (Hk' : k = 0 \/ k = 1 \/ k = 2 \/ k = 3 \/ k = 4 \/ k = 5) by lia.
  destruct Hk' as [->|[->|[->|[->|[->| ->]]]]]; split; reflexivity.
Qed.

Lemma clamp_stars_le (c : Z) : clamp_stars c <= 5.
Proof. unfold clamp_stars. lia. Qed.

Lemma gallery_flags (rating : Q) :
  List.map star_filled (PopularBusinesses.renderStars rating)
  = repeat true (clamp_stars (Qceiling rating))
      ++ repeat false (5 - clamp_stars (Qceiling rating)).
Proof.
  rewrite <- star_flags_of_count.
  unfold PopularBusinesses.renderStars. rewrite List.map_map.
  apply map_ext. intros i. cbn [star_filled]. apply Qltb_index.
Qed.

Lemma card_flags (rating : Q) :
  List.map star_filled (BusinessCard.renderStars rating)
  = repeat true (clamp_stars (Qfloor rating))
      ++ repeat false (5 - clamp_stars (Qfloor rating)).
Proof.
  rewrite <- star_flags_of_count.
  unfold BusinessCard.renderStars. now rewrite List.map_map.
Qed.

(** X18. For every rating, the gallery's star row has the five positions 0 to
    4, filled from the left: the first [ceil(rating)] of them, none when
    the rating is zero or less, all five when it is above four. *)
Theorem gallery_star_row_shape (rating : Q) :
  List.map star_key (PopularBusinesses.renderStars rating) = [0; 1; 2; 3; 4]
  /\ List.map star_filled (PopularBusinesses.renderStars rating)
     = repeat true (clamp_stars (Qceiling rating))
         ++ repeat false (5 - clamp_stars (Qceiling rating))
  /\ filled_count (PopularBusinesses.renderStars rating)
     = clamp_stars (Qceiling rating)
  /\ unfilled_count (PopularBusinesses.renderStars rating)
     = 5 - clamp_stars (Qceiling rating).
Proof.
  split; [reflexivity|]. split; [apply gallery_flags|].
  apply filled_count_of_flags; [apply clamp_stars_le | apply gallery_flags].
Qed.

(** X19. For every rating, the detail card's star row has the five positions 0
    to 4, filled from the left: the first [floor(rating)] of them, none
    when the rating is below one, all five when it is five or more. *)
Theorem card_star_row_shape (rating : Q) :
  List.map star_key (BusinessCard.renderStars rating) = [0; 1; 2; 3; 4]
  /\ List.map star_filled (BusinessCard.renderStars rating)
     = repeat true (clamp_stars (Qfloor rating))
         ++ repeat false (5 - clamp_stars (Qfloor rating))
  /\ filled_count (BusinessCard.renderStars rating)
     = clamp_stars (Qfloor rating)
  /\ unfilled_count (BusinessCard.renderStars rating)
     = 5 - clamp_stars (Qfloor rating).
Proof.
  split; [reflexivity|]. split; [apply card_flags|].
  apply filled_count_of_flags; [apply clamp_stars_le | apply card_flags].
Qed.

Lemma floor_ceiling_gap (x : Q) :
  (Qfloor x <= Qceiling x <= Qfloor x + 1)%Z
  /\ (inject_Z (Qfloor x) == x -> Qceiling x = Qfloor x)
  /\ (~ inject_Z (Qfloor x) == x -> Qceiling x = (Qfloor x + 1)%Z).
Proof.
  pose proof (Qfloor_le x) as Hfl.
  pose proof (Qlt_floor x) as Hlf.
  pose proof (Qle_ceiling x) as Hle.
  pose proof (Qceiling_lt x) as Hcl.
  assert (H1 : (Qfloor x <= Qceiling x)%Z).
  { rewrite Zle_Qle. eapply Qle_trans; eassumption. }
  assert (H2 : (Qceiling x - 1 < Qfloor x + 1)%Z).
  { rewrite Zlt_Qlt. eapply Qlt_trans; eassumption. }
  split; [lia|]. split.
  - intros Heq.
    assert (Qceiling x - 1 < Qfloor x)%Z; [|lia].
    rewrite Zlt_Qlt. now rewrite Heq.
  - intros Hne.
    assert (Qfloor x < Qceiling x)%Z; [|lia].
    rewrite Zlt_Qlt. eapply Qlt_le_trans; [|exact Hle].
    apply Qle_lteq in Hfl. destruct Hfl as [Hlt|Heq]; [exact Hlt|].
    now destruct Hne.
Qed.

(** X20. On the same rating the gallery never shows fewer filled stars than the
    detail card and at most one more. They agree on whole-number ratings;
    on every fractional rating between 0 and 5 the gallery shows exactly
    one star more. *)
Theorem gallery_shows_at_most_one_star_more (rating : Q) :
  filled_count (BusinessCard.renderStars rating)
  <= filled_count (PopularBusinesses.renderStars rating)
  <= S (filled_count (BusinessCard.renderStars rating))
  /\ (inject_Z (Qfloor rating) == rating ->
      filled_count (PopularBusinesses.renderStars rating)
      = filled_count (BusinessCard.renderStars rating))
  /\ ((0 < rating)%Q -> (rating < 5)%Q ->
      ~ inject_Z (Qfloor rating) == rating ->
      filled_count (PopularBusinesses.renderStars rating)
      = S (filled_count (BusinessCard.renderStars rating))).
Proof.
  destruct (filled_count_of_flags _ _ (clamp_stars_le _)
              (gallery_flags rating)) as [-> _].
  destruct (filled_count_of_flags _ _ (clamp_stars_le _)
              (card_flags rating)) as [-> _].
  destruct (floor_ceiling_gap rating) as (Hgap & Hwhole & Hfrac).
  unfold clamp_stars. split; [lia|]. split.
  - intros Heq. now rewrite (Hwhole Heq).
  - intros Hpos Hlt Hne. rewrite (Hfrac Hne).
    assert (Hlo : (0 <= Qfloor rating)%Z).
    { change 0%Z with (Qfloor 0). apply Qfloor_resp_le.
      now apply Qlt_le_weak. }
    assert (Hhi : (Qfloor rating < 5)%Z).
    { rewrite Zlt_Qlt. eapply Qle_lt_trans; [apply Qfloor_le | exact Hlt]. }
    lia.
Qed.

Section Resubmission.
Import ListBusiness.
Variable env : Backend.

Lemma insert_calls_without_files s u :
  user s = Some u ->
  logoFile s = None ->
  productImages s = [] ->
  insert_calls (log_of (handleSubmit env s))
  = [DbInsert "businesses" (insert_row u (formData s) "" [])].
Proof.
  intros Hu Hlogo Hp.
  destruct (handleSubmit_authenticated env s u Hu) as (n & _ & _ & Hlog).
  rewrite Hlog.
  unfold logo_result, logo_calls, image_calls, images_result.
  rewrite Hlogo, Hp. cbn.
  now destruct (db_insert env "businesses" _).
Qed.

(** X12. The handler keeps the draft and has no guard of its own against a
    second submit: submitting twice a draft without files issues the
    insert twice, with the same row, whether the first insert was
    accepted or refused. *)
Theorem resubmit_reissues_the_insert (s : State) (u : User) :
  user s = Some u ->
  logoFile s = None ->
  productImages s = [] ->
  insert_calls (snd (run env [Submit; Submit] s))
  = [DbInsert "businesses" (insert_row u (formData s) "" []);
     DbInsert "businesses" (insert_row u (formData s) "" [])].
Proof.
  intros Hu Hlogo Hp.
  pose proof (insert_calls_without_files s u Hu Hlogo Hp) as H1.
  destruct (handleSubmit_keeps_draft env s) as (Ku & Kl & Kp & Kf).
  pose proof (insert_calls_without_files (state_of (handleSubmit env s)) u
                ltac:(now rewrite Ku) ltac:(now rewrite Kl)
                ltac:(now rewrite Kp)) as H2.
  rewrite Kf in H2.
  cbn [run step]. unfold state_of, log_of in *.
  destruct (handleSubmit env s) as [[s1 log1] r1]. cbn [fst snd] in *.
  destruct (handleSubmit env s1) as [[s2 log2] r2]. cbn [fst snd] in *.
  unfold insert_calls in *.
  rewrite app_nil_r, List.filter_app, H1, H2. reflexivity.
Qed.
End Resubmission.

(* ===================================================================== *)
(** ** The further theorems at the sample worlds *)
(* ===================================================================== *)

Lemma input_change_sets_only_that_field_sample :
  ListBusiness.Fname <> ListBusiness.Fcity
  /\ get_field ListBusiness.Fname
       (ListBusiness.formData
          (ListBusiness.handleInputChange ListBusiness.Fcity "Yangon"
             Sample.draft))
     = "Joe's Cafe".
Proof.
  split; [discriminate|].
  destruct (input_change_sets_only_that_field Sample.draft ListBusiness.Fcity
              "Yangon") as (_ & Hother & _).
  exact (Hother ListBusiness.Fname ltac:(discriminate)).
Defined.

Lemma option_change_sets_checkbox_sample :
  "Pickup In-Store" <> "Cash on Delivery"
  /\ ListBusiness.option_checked
       (ListBusiness.handleOptionChange "Cash on Delivery" true Sample.blank)
       "Pickup In-Store"
     = false.
Proof.
  split; [discriminate|].
  destruct (option_change_sets_checkbox Sample.blank "Cash on Delivery" true)
    as (_ & Hother).
  exact (Hother "Pickup In-Store" ltac:(discriminate)).
Defined.

Lemma option_change_occurrences_sample :
  "Pickup In-Store" <> "Cash on Delivery"
  /\ count_occ string_dec
       (ListBusiness.options
          (ListBusiness.formData
             (ListBusiness.handleOptionChange "Cash on Delivery" false
                (ListBusiness.handleOptionChange "Pickup In-Store" true
                   Sample.blank))))
       "Pickup In-Store"
     = 1.
Proof.
  split; [discriminate|].
  destruct (option_change_occurrences
              (ListBusiness.handleOptionChange "Pickup In-Store" true
                 Sample.blank) "Cash on Delivery") as (_ & _ & Hother).
  exact (Hother false "Pickup In-Store" ltac:(discriminate)).
Defined.

Lemma option_list_stays_duplicate_free_sample :
  List.NoDup (ListBusiness.options (ListBusiness.formData Sample.blank))
  /\ ListBusiness.option_checked Sample.blank "Digital Payments" = false
  /\ List.NoDup
       (ListBusiness.options
          (ListBusiness.formData
             (ListBusiness.handleOptionChange "Digital Payments" true
                Sample.blank))).
Proof.
  assert (Hnd : List.NoDup
                  (ListBusiness.options (ListBusiness.formData Sample.blank)))
    by constructor.
  split; [exact Hnd|]. split; [reflexivity|].
  destruct (option_list_stays_duplicate_free Sample.blank "Digital Payments"
              Hnd) as (_ & Hcheck).
  exact (Hcheck eq_refl).
Defined.

Lemma logo_selection_is_never_cleared_sample :
  is_Some (ListBusiness.logoFile Sample.draft)
  /\ is_Some
       (ListBusiness.logoFile
          (fst (ListBusiness.run Sample.accepting
                  [ListBusiness.LogoChange (Some []);
                   ListBusiness.LogoChange None; ListBusiness.Submit]
                  Sample.draft))).
Proof.
  assert (Hs : is_Some (ListBusiness.logoFile Sample.draft))
    by (eexists; reflexivity).
  split; [exact Hs|].
  destruct (logo_selection_is_never_cleared Sample.accepting Sample.draft
              [ListBusiness.LogoChange (Some []);
               ListBusiness.LogoChange None; ListBusiness.Submit])
    as (_ & Hkeep).
  exact (Hkeep Hs).
Defined.


Lemma dashboard_iff_insert_accepted_sample :
  In (Navigate "/dashboard")
     (log_of (ListBusiness.handleSubmit Sample.accepting Sample.draft))
  /\ In (Toast ListBusiness.success_toast)
       (log_of (ListBusiness.handleSubmit Sample.accepting Sample.draft)).
Proof.
  assert (Hnav : In (Navigate "/dashboard")
                   (log_of (ListBusiness.handleSubmit Sample.accepting
                              Sample.draft))).
  { vm_compute. do 6 right. left. reflexivity. }
  split; [exact Hnav|].
  destruct (dashboard_iff_insert_accepted Sample.accepting Sample.draft)
    as (_ & Hsucc).
  exact (proj1 (Hsucc Hnav)).
Defined.

Lemma inserted_row_carries_stored_urls_sample :
  ListBusiness.user Scenario.small_draft = Some Sample.alice
  /\ (exists row,
         In (DbInsert "businesses" row)
            (log_of (ListBusiness.handleSubmit Scenario.picky
                       Scenario.small_draft))
         /\ Row.product_images row
            = Some
                ["https://cdn.example/business-assets/v2/products/7f3c/1700000000001_0_front.jpg"]).
Proof.
  split; [reflexivity|].
  eexists. 
  assert (Hin : In (DbInsert "businesses"
                      (ListBusiness.insert_row Sample.alice
                         (ListBusiness.formData Scenario.small_draft)
                         "https://cdn.example/business-assets/v2/logos/7f3c/1700000000000_logo.png"
                         ["https://cdn.example/business-assets/v2/products/7f3c/1700000000001_0_front.jpg"]))
                  (log_of (ListBusiness.handleSubmit Scenario.picky
                             Scenario.small_draft))).
  { vm_compute. do 3 right. left. reflexivity. }
  split; [exact Hin|].
  destruct (inserted_row_carries_stored_urls Scenario.picky
              Scenario.small_draft Sample.alice "businesses" _ eq_refl Hin)
    as (_ & Himgs & _).
  etransitivity; [exact Himgs|]. vm_compute. reflexivity.
Defined.

Lemma product_uploads_fan_out_sample :
  ListBusiness.user Sample.draft = Some Sample.alice
  /\ uploaded_files
       (log_of (ListBusiness.handleSubmit Scenario.picky Sample.draft))
     = [Sample.logo_png; Sample.front_jpg; Sample.menu_jpg]
  /\ insert_calls
       (log_of (ListBusiness.handleSubmit Scenario.picky Sample.draft))
     = [].
Proof.
  assert (Hlogo : forall call,
             In call (logo_calls Scenario.picky Sample.alice Sample.draft) ->
             reply_error Scenario.picky call = None).
  { intros call [<-|[]]. reflexivity. }
  destruct (product_uploads_fan_out Scenario.picky Sample.draft Sample.alice
              eq_refl Hlogo) as (_ & Hfiles & _ & Hins).
  split; [reflexivity|]. split; [exact Hfiles|].
  apply Hins. eexists. split; [right; left; reflexivity|].
  eexists. reflexivity.
Defined.

Lemma form_is_shown_only_to_identified_user_sample :
  (exists form,
      ListBusinessView.render false Sample.draft
      = ListBusinessView.FormView form)
  /\ ~ In (Toast ListBusiness.auth_required_toast)
         (log_of (ListBusiness.handleSubmit Sample.refusing Sample.draft)).
Proof.
  split; [eexists; reflexivity|].
  destruct (form_is_shown_only_to_identified_user Sample.refusing false
              Sample.draft _ eq_refl) as (_ & _ & Hno & _).
  exact Hno.
Defined.


Lemma fetch_success_replaces_list_sample :
  reply_error Scenario.picky (Rpc "get_public_businesses") = None
  /\ PopularBusinesses.businesses
       (state_of
          (PopularBusinesses.fetchBusinesses Scenario.picky
             PopularBusinesses.initialState))
     = [Sample.joes_cafe].
Proof.
  split; [reflexivity|].
  destruct (fetch_success_replaces_list Scenario.picky
              PopularBusinesses.initialState eq_refl) as (Hrows & _).
  exact (proj1 (Hrows [Sample.joes_cafe] eq_refl)).
Defined.

Lemma gallery_card_treats_empty_as_missing_sample :
  Business.image_url Sample.joes_cafe = None
  /\ PopularBusinesses.logo (PopularBusinesses.renderCard Sample.joes_cafe)
     = PopularBusinesses.logo_placeholder.
Proof.
  split; [reflexivity|].
  destruct (gallery_card_treats_empty_as_missing Sample.joes_cafe)
    as (_ & Hlogo & _).
  exact (Hlogo (or_introl eq_refl)).
Defined.

Lemma gallery_shows_at_most_one_star_more_sample :
  (0 < 37 # 10)%Q /\ (37 # 10 < 5)%Q
  /\ ~ inject_Z (Qfloor (37 # 10)) == 37 # 10
  /\ filled_count (PopularBusinesses.renderStars (37 # 10))
     = S (filled_count (BusinessCard.renderStars (37 # 10))).
Proof.
  assert (Hpos : (0 < 37 # 10)%Q) by reflexivity.
  assert (Hlt : (37 # 10 < 5)%Q) by reflexivity.
  assert (Hne : ~ inject_Z (Qfloor (37 # 10)) == 37 # 10) by discriminate.
  split; [exact Hpos|]. split; [exact Hlt|]. split; [exact Hne|].
  destruct (gallery_shows_at_most_one_star_more (37 # 10)) as (_ & _ & Hfrac).
  exact (Hfrac Hpos Hlt Hne).
Defined.

Lemma resubmit_reissues_the_insert_sample :
  ListBusiness.user Sample.blank = Some Sample.alice
  /\ ListBusiness.logoFile Sample.blank = None
  /\ ListBusiness.productImages Sample.blank = []
  /\ length
       (insert_calls
          (snd (ListBusiness.run Sample.refusing
                  [ListBusiness.Submit; ListBusiness.Submit] Sample.blank)))
     = 2.
Proof.
  split; [reflexivity|]. split; [reflexivity|]. split; [reflexivity|].
  now rewrite (resubmit_reissues_the_insert Sample.refusing Sample.blank
                 Sample.alice eq_refl eq_refl eq_refl).
Defined.
